(** * Android SafetyNet attestation statement verification

    A shallow embedding of [attestation/androidsafetynet/androidsafetynet.go]
    (WebAuthn section 8.5).  The verifier is one straight-line function that
    calls into other packages (go-jose, crypto/x509, encoding/json,
    crypto/sha256, the package clock [now]).  Those calls are kept as
    events of a small free monad, so that the order of the calls, the
    arguments they receive and the number of clock readings are all visible
    in the model; a library interprets the events as functions.  The
    arguments as slices in the caller's memory, and the one write the
    verifier makes to it, are modelled on top of that. *)

From Stdlib Require Import ZArith Strings.Byte.
From Stdlib Require String.
From stdpp Require Import base decidable option list gmap strings.


(** ** Go data *)

(** Go's [[]byte]. *)
Definition bytes : Type := list byte.

#[global] Instance byte_eq_decision : EqDecision byte := Byte.byte_eq_dec.

(** [bytes.Equal]: same length and same bytes (a nil slice equals an empty
    one, which the list model identifies). *)
Definition bytes_Equal (a b : bytes) : bool := bool_decide (a = b).

(** A value of type [interface{}] as the verifier observes it: the two
    dynamic types it asserts ([string], [[]byte]), and any other dynamic
    type, of which only the name printed by [%T] is ever used. *)
Inductive Value : Type :=
| VString (s : string)
| VBytes (b : bytes)
| VOther (T : string).

(** [fmt]'s [%T]. *)
Definition typeName (v : Value) : string :=
  match v with
  | VString _ => "string"
  | VBytes _ => "[]uint8"
  | VOther T => T
  end.

(** [protocol.AuthenticatorData] and [protocol.Attestation], with the fields
    the verifier reads. *)
Record AuthenticatorData : Type := { Raw : bytes }.

Record Attestation : Type := {
  Fmt : string;
  AuthData : AuthenticatorData;
  AttStmt : gmap string Value
}.

Record AndroidSafetyNetAttestionResponse : Type := {
  Nonce : bytes;
  TimestampMs : Z;
  ApkPackageName : string;
  ApkDigestSha256 : bytes;
  CtsProfileMatch : bool;
  ApkCertificateDigestSha256 : list bytes;
  BasicIntegrity : bool
}.

(** ** The packages the verifier imports *)

(** Types and field accessors of go-jose, crypto/x509 and time, and the
    sentinel of the protocol package.  [ErrorText] is [err.Error()], the text
    [%v] prints. *)
Class Foreign : Type := {
  JSONWebSignature : Type;
  Signature : Type;
  Header : Type;
  Certificate : Type;
  PublicKeyT : Type;
  error : Type;
  Time : Type;
  ErrKind : Type;
  Signatures : JSONWebSignature -> list Signature;
  Protected : Signature -> Header;
  PublicKey : Certificate -> PublicKeyT;
  ErrorText : error -> string;
  InvalidAttestation : ErrKind
}.

Section Verifier.
Context {F : Foreign}.

(** [x509.VerifyOptions], with the two fields the verifier sets. *)
Record VerifyOptions : Type := {
  DNSName : string;
  CurrentTime : Time
}.

(** Modelled from the spec: the protocol package ([protocol.Error],
    [ErrInvalidAttestation], [WithDebug], [WithDebugf], [WithCause]) is not
    among the sources.  The output contract describes a failure as a stable
    error kind plus free-form diagnostic detail and an optional wrapped
    underlying cause. *)
Record Error : Type := {
  kind : ErrKind;
  debug : string;
  cause : option error
}.

Definition ErrInvalidAttestation : Error :=
  {| kind := InvalidAttestation; debug := ""; cause := None |}.

Definition WithDebug (e : Error) (d : string) : Error :=
  {| kind := kind e; debug := d; cause := cause e |}.

Definition WithCause (e : Error) (c : error) : Error :=
  {| kind := kind e; debug := debug e; cause := Some c |}.

(** ** Calls into other packages

    A Go call returning [(T, error)] answers with [inl err] or [inr t]. *)
Inductive Call : Type -> Type :=
| ParseSigned (input : string) : Call (error + JSONWebSignature)
| now : Call Time
| Certificates (h : Header) (opts : VerifyOptions)
    : Call (error + list (list Certificate))
| Verify (obj : JSONWebSignature) (key : PublicKeyT) : Call (error + bytes)
| Unmarshal (data : bytes) : Call (error + AndroidSafetyNetAttestionResponse)
| Sum256 (data : bytes) : Call bytes.

(** Programs: return, run-time panic, or an external call and what follows. *)
Inductive Prog (R : Type) : Type :=
| Ret (r : R)
| Panic (msg : string)
| Do {X : Type} (c : Call X) (k : X -> Prog R).

Arguments Ret {R} r.
Arguments Panic {R} msg.
Arguments Do {R X} c k.

Notation "x <- c ;; k" := (Do c (fun x => k))
  (at level 100, c at next level, right associativity).
Notation "'return_' e" := (Ret (Some e)) (at level 10, e at level 9).

(** The verifier.  The result is Go's [error]: [None] is [nil]. *)
Definition verifyAndroidSafetynet (a : Attestation) (clientDataHash : bytes)
  : Prog (option Error) :=
  match AttStmt a !! "ver" with
  | None => return_ (WithDebug ErrInvalidAttestation "missing ver for android-safetynet")
  | Some rawVer =>
  match rawVer with
  | VBytes _ | VOther _ =>
      return_ (WithDebug ErrInvalidAttestation
                 ("invalid ver for android-safetynet, is of invalid type " +:+ typeName rawVer))
  | VString ver =>
  if decide (ver = "") then
    return_ (WithDebug ErrInvalidAttestation "invalid ver for android-safetynet")
  else
  match AttStmt a !! "response" with
  | None => return_ (WithDebug ErrInvalidAttestation "missing response for android-safetynet")
  | Some rawResponse =>
  match rawResponse with
  | VString _ | VOther _ =>
      (* [%T] is applied to [responseBytes], the zero []byte of the failed
         assertion, not to [rawResponse] *)
      return_ (WithDebug ErrInvalidAttestation
                 ("invalid response for android-safetynet, is of invalid type "
                    +:+ typeName (VBytes [])))
  | VBytes responseBytes =>
  parsed <- ParseSigned (String.string_of_list_byte responseBytes) ;;
  match parsed with
  | inl err =>
      return_ (WithDebug ErrInvalidAttestation
                 ("invalid response for android-safetynet: " +:+ ErrorText err))
  | inr response =>
  if decide (length (Signatures response) ≠ 1) then
    return_ (WithDebug ErrInvalidAttestation
               "invalid response for android-safetynet: more or less than 1 signature")
  else
  match Signatures response with
  | [] => Panic "index out of range [0] with length 0"
  | sig0 :: _ =>
  t <- now ;;
  chains <- Certificates (Protected sig0)
              {| DNSName := "attest.android.com"; CurrentTime := t |} ;;
  match chains with
  | inl err =>
      return_ (WithCause
                 (WithDebug ErrInvalidAttestation
                    ("invalid response for android-safetynet: " +:+ ErrorText err))
                 err)
  | inr cert =>
  match cert with
  | [] => Panic "index out of range [0] with length 0"
  | [] :: _ => Panic "index out of range [0] with length 0"
  | (leaf :: _) :: _ =>
  verified <- Verify response (PublicKey leaf) ;;
  match verified with
  | inl err =>
      return_ (WithCause
                 (WithDebug ErrInvalidAttestation
                    ("invalid response for android-safetynet: " +:+ ErrorText err))
                 err)
  | inr payload =>
  decoded <- Unmarshal payload ;;
  match decoded with
  | inl err =>
      return_ (WithDebug ErrInvalidAttestation
                 ("invalid response for android-safetynet: " +:+ ErrorText err))
  | inr attestationResponse =>
  (* the value of [append(a.AuthData.Raw, clientDataHash...)]; what the
     append writes to the caller's memory is modelled by [go_append] and
     [call] below *)
  let nonceBytes := Raw (AuthData a) ++ clientDataHash in
  expectedNonce <- Sum256 nonceBytes ;;
  if negb (bytes_Equal expectedNonce (Nonce attestationResponse)) then
    return_ (WithDebug ErrInvalidAttestation
               "invalid response for android-safetynet: invalid nonce")
  else
  if negb (CtsProfileMatch attestationResponse) then
    return_ (WithDebug ErrInvalidAttestation
               "invalid response for android-safetynet: does not match CTS profile")
  else
  Ret None
  end end end end end end end end end end.

(** ** Running a program against the imported packages *)

(** What the imported packages compute.  [time_Now k] is the instant the
    wall clock [time.Now] shows at the [k]-th reading taken in the process. *)
Record Library : Type := {
  jose_ParseSigned : string -> error + JSONWebSignature;
  jose_Certificates : Header -> VerifyOptions -> error + list (list Certificate);
  jose_Verify : JSONWebSignature -> PublicKeyT -> error + bytes;
  json_Unmarshal : bytes -> error + AndroidSafetyNetAttestionResponse;
  sha256_Sum256 : bytes -> bytes;
  time_Now : nat -> Time
}.

(** The package variable [now] holds a clock: a function from the number of
    readings taken so far to the instant it shows.  [var now = time.Now]. *)
Definition Clock : Type := nat -> Time.

Definition now_initial (L : Library) : Clock := time_Now L.

Inductive Event : Type :=
| Ev {X : Type} (c : Call X).

Inductive Outcome (R : Type) : Type :=
| Returned (r : R)
| Panicked (msg : string).

Arguments Returned {R} r.
Arguments Panicked {R} msg.

(** An execution: how it ended, the number of clock readings taken in the
    process when it ended, and the external calls it made, in order. *)
Record Execution (R : Type) : Type := {
  outcome : Outcome R;
  readings : nat;
  calls : list Event
}.

Arguments outcome {R} _.
Arguments readings {R} _.
Arguments calls {R} _.

(** The answer to one call, made when [n] clock readings have been taken. *)
Definition answer (L : Library) (clock : Clock) {X : Type} (c : Call X) (n : nat)
  : X * nat :=
  match c in Call T return T * nat with
  | ParseSigned input => (jose_ParseSigned L input, n)
  | now => (clock n, S n)
  | Certificates h opts => (jose_Certificates L h opts, n)
  | Verify obj key => (jose_Verify L obj key, n)
  | Unmarshal data => (json_Unmarshal L data, n)
  | Sum256 data => (sha256_Sum256 L data, n)
  end.

Fixpoint exec (L : Library) (clock : Clock) {R : Type} (p : Prog R) (n : nat)
  : Execution R :=
  match p with
  | Ret r => {| outcome := Returned r; readings := n; calls := [] |}
  | Panic msg => {| outcome := Panicked msg; readings := n; calls := [] |}
  | Do c k =>
      let '(x, n') := answer L clock c n in
      let e := exec L clock (k x) n' in
      {| outcome := outcome e; readings := readings e; calls := Ev c :: calls e |}
  end.

(** One invocation of the verifier: the package variable [now] holds
    [clock], and [n] readings of it have been taken before. *)
Definition invoke (L : Library) (clock : Clock) (a : Attestation)
    (clientDataHash : bytes) (n : nat) : Execution (option Error) :=
  exec L clock (verifyAndroidSafetynet a clientDataHash) n.

(** Observations on the calls of an execution. *)
Definition is_now (e : Event) : bool :=
  match e with
  | Ev now => true
  | Ev _ => false
  end.

Definition clock_readings (tr : list Event) : nat :=
  length (List.filter is_now tr).

(** The [CurrentTime] of every chain validation requested. *)
Fixpoint validation_times (tr : list Event) : list Time :=
  match tr with
  | [] => []
  | Ev (Certificates _ opts) :: tr' => CurrentTime opts :: validation_times tr'
  | _ :: tr' => validation_times tr'
  end.

(** The byte strings handed to SHA-256. *)
Fixpoint hashed (tr : list Event) : list bytes :=
  match tr with
  | [] => []
  | Ev (Sum256 data) :: tr' => data :: hashed tr'
  | _ :: tr' => hashed tr'
  end.

(** The library that answers payload decoding with the second integrity
    flag forced to [b], and is [L] otherwise. *)
Definition set_BasicIntegrity (b : bool) (r : AndroidSafetyNetAttestionResponse)
  : AndroidSafetyNetAttestionResponse :=
  {| Nonce := Nonce r; TimestampMs := TimestampMs r;
     ApkPackageName := ApkPackageName r; ApkDigestSha256 := ApkDigestSha256 r;
     CtsProfileMatch := CtsProfileMatch r;
     ApkCertificateDigestSha256 := ApkCertificateDigestSha256 r;
     BasicIntegrity := b |}.

Definition with_BasicIntegrity (b : bool) (L : Library) : Library :=
  {| jose_ParseSigned := jose_ParseSigned L;
     jose_Certificates := jose_Certificates L;
     jose_Verify := jose_Verify L;
     json_Unmarshal := fun data =>
       match json_Unmarshal L data with
       | inl err => inl err
       | inr r => inr (set_BasicIntegrity b r)
       end;
     sha256_Sum256 := sha256_Sum256 L;
     time_Now := time_Now L |}.

(** ** Stages of the pipeline, as conditions on the inputs *)

(** Both fields are present, [ver] is a non-empty string and [response] a
    byte sequence. *)
Definition extracted (stmt : gmap string Value) (ver : string) (rb : bytes) : Prop :=
  stmt !! "ver" = Some (VString ver) ∧ ver ≠ "" ∧
  stmt !! "response" = Some (VBytes rb).

(** Extraction succeeds and the response parses to [response], whose only
    signature section is [sig0]. *)
Definition reaches_chain_validation (L : Library) (stmt : gmap string Value)
    (response : JSONWebSignature) (sig0 : Signature) : Prop :=
  ∃ ver rb, extracted stmt ver rb ∧
    jose_ParseSigned L (String.string_of_list_byte rb) = inr response ∧
    Signatures response = [sig0].

(** All stages up to payload decoding succeed, the chain being valid for
    the DNS name [name] at the reading the clock gives after [n] readings. *)
Definition verified_payload (name : string) (L : Library) (clock : Clock)
    (stmt : gmap string Value) (n : nat)
    (resp : AndroidSafetyNetAttestionResponse) : Prop :=
  ∃ response sig0 leaf rest chains payload,
    reaches_chain_validation L stmt response sig0 ∧
    jose_Certificates L (Protected sig0)
      {| DNSName := name; CurrentTime := clock n |} = inr ((leaf :: rest) :: chains) ∧
    jose_Verify L response (PublicKey leaf) = inr payload ∧
    json_Unmarshal L payload = inr resp.

(** A statement the extractor rejects: a field is absent, [ver] is not a
    non-empty string, or [response] is not a byte sequence. *)
Definition malformed_statement (stmt : gmap string Value) : Prop :=
  stmt !! "ver" = None ∨ stmt !! "response" = None ∨
  (∃ v, stmt !! "ver" = Some v ∧ ∀ s, v = VString s → s = "") ∨
  (∃ v, stmt !! "response" = Some v ∧ ∀ b, v ≠ VBytes b).

(** The failures returned by the nonce check and by the policy check. *)
Definition invalidNonce : Error :=
  WithDebug ErrInvalidAttestation "invalid response for android-safetynet: invalid nonce".

Definition noCtsProfile : Error :=
  WithDebug ErrInvalidAttestation
    "invalid response for android-safetynet: does not match CTS profile".

Definition failed (e : Execution (option Error)) : Prop :=
  ∃ err, outcome e = Returned (Some err).

(** The calls made up to and including chain validation. *)
Definition chain_calls (clock : Clock) (n : nat) (rb : bytes) (sig0 : Signature) : list Event :=
  [ Ev (ParseSigned (String.string_of_list_byte rb)); Ev now;
    Ev (Certificates (Protected sig0)
          {| DNSName := "attest.android.com"; CurrentTime := clock n |}) ].

(** The statement [a] with the value of [ver] replaced by the string [v]. *)
Definition with_ver (v : string) (a : Attestation) : Attestation :=
  {| Fmt := Fmt a; AuthData := AuthData a;
     AttStmt := <["ver" := VString v]> (AttStmt a) |}.

(** ** Further observations and variations of the inputs *)

(** The function an event calls. *)
Definition call_name (e : Event) : string :=
  match e with
  | Ev (ParseSigned _) => "jose.ParseSigned"
  | Ev now => "now"
  | Ev (Certificates _ _) => "Header.Certificates"
  | Ev (Verify _ _) => "JSONWebSignature.Verify"
  | Ev (Unmarshal _) => "json.Unmarshal"
  | Ev (Sum256 _) => "sha256.Sum256"
  end.

(** The calls of a run that passes every stage, in program order. *)
Definition pipeline : list string :=
  [ "jose.ParseSigned"; "now"; "Header.Certificates"; "JSONWebSignature.Verify";
    "json.Unmarshal"; "sha256.Sum256" ].

(** The [DNSName] of every chain validation requested. *)
Fixpoint validation_names (tr : list Event) : list string :=
  match tr with
  | [] => []
  | Ev (Certificates _ opts) :: tr' => DNSName opts :: validation_names tr'
  | _ :: tr' => validation_names tr'
  end.

(** The library [L] with payload decoding replaced by [f], and with chain
    validation replaced by [g]. *)
Definition with_Unmarshal
    (f : bytes -> error + AndroidSafetyNetAttestionResponse) (L : Library) : Library :=
  {| jose_ParseSigned := jose_ParseSigned L;
     jose_Certificates := jose_Certificates L;
     jose_Verify := jose_Verify L;
     json_Unmarshal := f;
     sha256_Sum256 := sha256_Sum256 L;
     time_Now := time_Now L |}.

Definition with_Certificates
    (g : Header -> VerifyOptions -> error + list (list Certificate)) (L : Library)
  : Library :=
  {| jose_ParseSigned := jose_ParseSigned L;
     jose_Certificates := g;
     jose_Verify := jose_Verify L;
     json_Unmarshal := json_Unmarshal L;
     sha256_Sum256 := sha256_Sum256 L;
     time_Now := time_Now L |}.

(** Two decoding answers that fail alike, or succeed with the same nonce and
    the same device-integrity flag. *)
Definition same_checked_fields
    (x y : error + AndroidSafetyNetAttestionResponse) : Prop :=
  match x, y with
  | inl e, inl e' => e = e'
  | inr r, inr r' => Nonce r = Nonce r' ∧ CtsProfileMatch r = CtsProfileMatch r'
  | _, _ => False
  end.

(** Two chain validation answers that fail alike, or succeed with the same
    first certificate of the first chain (or both without one). *)
Definition same_leaf (x y : error + list (list Certificate)) : Prop :=
  match x, y with
  | inl e, inl e' => e = e'
  | inr c, inr c' => head c ≫= head = head c' ≫= head
  | _, _ => False
  end.

(** The statement [a] with field [k] set to [v], and with field [k] removed. *)
Definition with_field (k : string) (v : Value) (a : Attestation) : Attestation :=
  {| Fmt := Fmt a; AuthData := AuthData a; AttStmt := <[k := v]> (AttStmt a) |}.

Definition without_field (k : string) (a : Attestation) : Attestation :=
  {| Fmt := Fmt a; AuthData := AuthData a; AttStmt := delete k (AttStmt a) |}.

End Verifier.

(** The error taxonomy in the words of the specification (section 7), one
    kind per trigger, to compare with the kinds the verifier returns.  The
    sources have no such type. *)
Inductive FailureKind : Type :=
| MalformedStatement
| MalformedSignature
| UntrustedCertificate
| SignatureInvalid
| MalformedPayload
| NonceMismatch
| IntegrityPolicyViolation.

(** The taxonomy read against the code: for each trigger of section 7, the
    condition on the inputs under which it fires and the failure the
    verifier reports for it (diagnostic detail and wrapped cause). *)
Section Taxonomy.
Context {F : Foreign}.
Variables (L : Library) (clock : Clock) (a : Attestation) (cdh : bytes) (n : nat).

Inductive reported : FailureKind -> Error -> Prop :=
| rep_missing_ver :
    AttStmt a !! "ver" = None ->
    reported MalformedStatement
      (WithDebug ErrInvalidAttestation "missing ver for android-safetynet")
| rep_ver_type v :
    AttStmt a !! "ver" = Some v -> (forall s, v <> VString s) ->
    reported MalformedStatement
      (WithDebug ErrInvalidAttestation
         ("invalid ver for android-safetynet, is of invalid type " +:+ typeName v))
| rep_ver_empty :
    AttStmt a !! "ver" = Some (VString "") ->
    reported MalformedStatement
      (WithDebug ErrInvalidAttestation "invalid ver for android-safetynet")
| rep_missing_response ver :
    AttStmt a !! "ver" = Some (VString ver) -> ver <> "" ->
    AttStmt a !! "response" = None ->
    reported MalformedStatement
      (WithDebug ErrInvalidAttestation "missing response for android-safetynet")
| rep_response_type ver v :
    AttStmt a !! "ver" = Some (VString ver) -> ver <> "" ->
    AttStmt a !! "response" = Some v -> (forall b, v <> VBytes b) ->
    reported MalformedStatement
      (WithDebug ErrInvalidAttestation
         "invalid response for android-safetynet, is of invalid type []uint8")
| rep_unparsable ver rb err :
    extracted (AttStmt a) ver rb ->
    jose_ParseSigned L (String.string_of_list_byte rb) = inl err ->
    reported MalformedSignature
      (WithDebug ErrInvalidAttestation
         ("invalid response for android-safetynet: " +:+ ErrorText err))
| rep_signature_count ver rb response :
    extracted (AttStmt a) ver rb ->
    jose_ParseSigned L (String.string_of_list_byte rb) = inr response ->
    length (Signatures response) <> 1 ->
    reported MalformedSignature
      (WithDebug ErrInvalidAttestation
         "invalid response for android-safetynet: more or less than 1 signature")
| rep_untrusted response sig0 err :
    reaches_chain_validation L (AttStmt a) response sig0 ->
    jose_Certificates L (Protected sig0)
      {| DNSName := "attest.android.com"; CurrentTime := clock n |} = inl err ->
    reported UntrustedCertificate
      (WithCause
         (WithDebug ErrInvalidAttestation
            ("invalid response for android-safetynet: " +:+ ErrorText err))
         err)
| rep_signature response sig0 leaf rest chains err :
    reaches_chain_validation L (AttStmt a) response sig0 ->
    jose_Certificates L (Protected sig0)
      {| DNSName := "attest.android.com"; CurrentTime := clock n |}
      = inr ((leaf :: rest) :: chains) ->
    jose_Verify L response (PublicKey leaf) = inl err ->
    reported SignatureInvalid
      (WithCause
         (WithDebug ErrInvalidAttestation
            ("invalid response for android-safetynet: " +:+ ErrorText err))
         err)
| rep_undecodable response sig0 leaf rest chains payload err :
    reaches_chain_validation L (AttStmt a) response sig0 ->
    jose_Certificates L (Protected sig0)
      {| DNSName := "attest.android.com"; CurrentTime := clock n |}
      = inr ((leaf :: rest) :: chains) ->
    jose_Verify L response (PublicKey leaf) = inr payload ->
    json_Unmarshal L payload = inl err ->
    reported MalformedPayload
      (WithDebug ErrInvalidAttestation
         ("invalid response for android-safetynet: " +:+ ErrorText err))
| rep_nonce resp :
    verified_payload "attest.android.com" L clock (AttStmt a) n resp ->
    sha256_Sum256 L (Raw (AuthData a) ++ cdh) <> Nonce resp ->
    reported NonceMismatch invalidNonce
| rep_policy resp :
    verified_payload "attest.android.com" L clock (AttStmt a) n resp ->
    sha256_Sum256 L (Raw (AuthData a) ++ cdh) = Nonce resp ->
    CtsProfileMatch resp = false ->
    reported IntegrityPolicyViolation noCtsProfile.

End Taxonomy.


Arguments Returned {R} r.
Arguments Panicked {R} msg.
Arguments Ret {F R} r.
Arguments Panic {F R} msg.
Arguments Do {F R X} c k.
Arguments outcome {F R} _.
Arguments readings {F R} _.
Arguments calls {F R} _.

(** ** Byte slices in memory

    The verifier receives [a.AuthData.Raw], [clientDataHash] and the byte
    values of the statement as slices: windows on arrays that the caller
    owns.  Line 88, [append(a.AuthData.Raw, clientDataHash...)], writes into
    the array behind [Raw] when its capacity allows.  Memory maps array
    identifiers to their contents. *)
Record Slice : Type := {
  array : nat;
  offset : nat;
  len : nat;
  cap : nat
}.

Definition backing (m : gmap nat (list byte)) (s : Slice) : list byte :=
  default [] (m !! array s).

(** The elements of a slice. *)
Definition elements (m : gmap nat (list byte)) (s : Slice) : bytes :=
  take (len s) (drop (offset s) (backing m s)).

(** Go's [append(s, data...)]: when the capacity of [s] suffices, [data] is
    written into the array of [s] right after its elements, and the result
    shares that array; otherwise the elements and [data] are copied to a new
    array.  [data] holds the values of the appended elements as they are
    before the write. *)
Definition go_append (m : gmap nat (list byte)) (s : Slice) (data : bytes)
  : gmap nat (list byte) * Slice :=
  if decide (len s + length data ≤ cap s) then
    (alter (list_inserts (offset s + len s) data) (array s) m,
     {| array := array s; offset := offset s;
        len := len s + length data; cap := cap s |})
  else
    let fresh_array := fresh (dom m) in
    (<[fresh_array := elements m s ++ data]> m,
     {| array := fresh_array; offset := 0;
        len := len s + length data; cap := len s + length data |}).

(** The arguments of the verifier as they lie in memory. *)
Inductive MemValue : Type :=
| MString (s : string)
| MBytes (s : Slice)
| MOther (T : string).

Record MemAttestation : Type := {
  mFmt : string;
  mRaw : Slice;
  mAttStmt : gmap string MemValue
}.

Definition load_value (m : gmap nat (list byte)) (v : MemValue) : Value :=
  match v with
  | MString s => VString s
  | MBytes s => VBytes (elements m s)
  | MOther T => VOther T
  end.

Definition load (m : gmap nat (list byte)) (ga : MemAttestation) : Attestation :=
  {| Fmt := mFmt ga;
     AuthData := {| Raw := elements m (mRaw ga) |};
     AttStmt := load_value m <$> mAttStmt ga |}.

(** The window that appending [n] bytes to [raw] in place writes to does
    not overlap the slice [s], and [s] is on an allocated array. *)
Definition apart (m : gmap nat (list byte)) (raw : Slice) (n : nat) (s : Slice) : Prop :=
  is_Some (m !! array s) ∧
  (array s ≠ array raw ∨
   offset s + len s ≤ offset raw + len raw ∨
   offset raw + len raw + n ≤ offset s).

Definition apart_value (m : gmap nat (list byte)) (raw : Slice) (n : nat)
    (v : MemValue) : Prop :=
  match v with
  | MBytes s => apart m raw n s
  | MString _ | MOther _ => True
  end.

(** No slice the verifier reads lies in the spare capacity of [Raw] that
    line 88 writes to. *)
Definition unaliased (m : gmap nat (list byte)) (ga : MemAttestation)
    (clientDataHash : Slice) : Prop :=
  let n := length (elements m clientDataHash) in
  is_Some (m !! array (mRaw ga)) ∧
  apart m (mRaw ga) n clientDataHash ∧
  map_Forall (λ _ v, apart_value m (mRaw ga) n v) (mAttStmt ga).

Section InMemory.
Context {F : Foreign}.

(** One call of the verifier on arguments in memory, after [n] clock
    readings: the run on the values the slices hold, and the memory the call
    leaves.  The only write is the [append] of line 88, which is executed
    exactly on the runs that go on to hash its result on line 89. *)
Definition call (L : Library) (clock : Clock) (ga : MemAttestation)
    (clientDataHash : Slice) (m : gmap nat (list byte)) (n : nat)
  : Execution (option Error) * gmap nat (list byte) :=
  let e := invoke L clock (load m ga) (elements m clientDataHash) n in
  (e,
   match hashed (calls e) with
   | [] => m
   | _ :: _ => (go_append m (mRaw ga) (elements m clientDataHash)).1
   end).

End InMemory.

(** ** A small library instance

    An executable stand-in for the imported packages, used to run the
    verifier on concrete inputs.  Certificates carry the DNS name they were
    issued to, a validity window and a key; a signed response carries its
    payload and, per signature, the embedded chain and the key that made the
    signature.  The theorems below hold for every library; only the
    examples use this one. *)
Module Demo.

Record Cert : Type := {
  dnsName : string;
  notBefore : Z;
  notAfter : Z;
  key : Z;
  trusted : bool
}.

Record Sig : Type := {
  x5c : list Cert;
  signedWith : Z
}.

Record JWS : Type := {
  payload : bytes;
  signatures : list Sig
}.

#[global] Instance foreign : Foreign := {|
  JSONWebSignature := JWS;
  Signature := Sig;
  Header := list Cert;
  Certificate := Cert;
  PublicKeyT := Z;
  error := string;
  Time := Z;
  ErrKind := string;
  Signatures := signatures;
  Protected := x5c;
  PublicKey := key;
  ErrorText := fun e => e;
  InvalidAttestation := "invalid_attestation"
|}.

(** Compact serialisations are looked up in a table of known tokens. *)
Definition parseSigned (tokens : list (string * JWS)) (input : string)
  : string + JWS :=
  match list_find (fun t => t.1 = input) tokens with
  | Some (_, (_, obj)) => inr obj
  | None => inl "square/go-jose: compact JWS format must have three parts"
  end.

(** The leaf must be issued to the requested name, the requested time must
    lie in the validity window of every certificate, and the chain must end
    in a trusted root. *)
Definition certificates (h : list Cert) (opts : VerifyOptions)
  : string + list (list Cert) :=
  match h with
  | [] => inl "square/go-jose: no x5c header present in message"
  | leaf :: _ =>
      if negb (forallb (fun c => (notBefore c <=? CurrentTime opts)%Z
                                 && (CurrentTime opts <=? notAfter c)%Z) h)
      then inl "x509: certificate has expired or is not yet valid"
      else if negb (bool_decide (dnsName leaf = DNSName opts))
      then inl "x509: certificate is not valid for the requested name"
      else if negb (forallb trusted h)
      then inl "x509: certificate signed by unknown authority"
      else inr [h]
  end.

Definition verify (obj : JWS) (k : Z) : string + bytes :=
  match signatures obj with
  | [s] => if (signedWith s =? k)%Z then inr (payload obj)
           else inl "square/go-jose: error in cryptographic primitive"
  | _ => inl "square/go-jose: too many signatures in payload"
  end.

(** Payload layout: the two integrity flags, one byte each, then the nonce. *)
Definition unmarshal (data : bytes) : string + AndroidSafetyNetAttestionResponse :=
  match data with
  | cts :: basic :: nonce =>
      inr {| Nonce := nonce; TimestampMs := 0; ApkPackageName := "";
             ApkDigestSha256 := []; CtsProfileMatch := negb (Byte.eqb cts x00);
             ApkCertificateDigestSha256 := [];
             BasicIntegrity := negb (Byte.eqb basic x00) |}
  | _ => inl "unexpected end of JSON input"
  end.

(** A 32-byte checksum standing in for SHA-256. *)
Definition digest (data : bytes) : bytes :=
  map (fun i =>
         default x00
           (Byte.of_N
              (fold_left (fun acc b => (acc * 31 + Byte.to_N b + N.of_nat i) mod 256)%N
                 data (N.of_nat (length data) mod 256)%N)))
      (seq 0 32).

Definition library (tokens : list (string * JWS)) : Library := {|
  jose_ParseSigned := parseSigned tokens;
  jose_Certificates := certificates;
  jose_Verify := verify;
  json_Unmarshal := unmarshal;
  sha256_Sum256 := digest;
  time_Now := fun k => (1700000000 + Z.of_nat k)%Z
|}.

(** Test data. *)
Definition raw : bytes := [x01; x02].
Definition clientDataHash : bytes := [x03; x04].

Definition goodPayload : bytes := x01 :: x01 :: digest (raw ++ clientDataHash).
Definition noCtsPayload : bytes := x00 :: x01 :: digest (raw ++ clientDataHash).
Definition staleNoncePayload : bytes := x01 :: x01 :: digest [x09].

Definition leafFor (name : string) : Cert :=
  {| dnsName := name; notBefore := 1000; notAfter := 2000; key := 7; trusted := true |}.

Definition signed (name : string) (p : bytes) : JWS :=
  {| payload := p; signatures := [ {| x5c := [leafFor name]; signedWith := 7 |} ] |}.

Definition tokens : list (string * JWS) :=
  [ ("android", signed "attest.android.com" goodPayload);
    ("example", signed "attest.example.com" goodPayload);
    ("nocts", signed "attest.android.com" noCtsPayload);
    ("stale", signed "attest.android.com" staleNoncePayload);
    ("unsigned", {| payload := goodPayload; signatures := [] |}) ].

Definition lib : Library := library tokens.

Definition fixedClock : Clock := fun _ => 1500%Z.

Definition statement (ver : Value) (token : string) : gmap string Value :=
  <["ver" := ver]> (<["response" := VBytes (String.list_byte_of_string token)]> ∅).

Definition attestation (stmt : gmap string Value) (authData : bytes) : Attestation :=
  {| Fmt := "android-safetynet"; AuthData := {| Raw := authData |}; AttStmt := stmt |}.

Definition goodResponse : AndroidSafetyNetAttestionResponse :=
  {| Nonce := digest (raw ++ clientDataHash); TimestampMs := 0; ApkPackageName := "";
     ApkDigestSha256 := []; CtsProfileMatch := true;
     ApkCertificateDigestSha256 := []; BasicIntegrity := true |}.

(** Version "14" and a response whose chain is issued to the given host. *)
Definition androidAttestation : Attestation :=
  attestation (statement (VString "14") "android") raw.

Definition exampleAttestation : Attestation :=
  attestation (statement (VString "14") "example") raw.

(** A statement without [ver], and a response signed over a nonce that
    belongs to another transaction. *)
Definition missingVerAttestation : Attestation :=
  attestation (delete "ver" (statement (VString "14") "android")) raw.

Definition staleAttestation : Attestation :=
  attestation (statement (VString "14") "stale") raw.

Definition staleResponse : AndroidSafetyNetAttestionResponse :=
  {| Nonce := digest [x09]; TimestampMs := 0; ApkPackageName := "";
     ApkDigestSha256 := []; CtsProfileMatch := true;
     ApkCertificateDigestSha256 := []; BasicIntegrity := true |}.

(** A response whose payload has the device-integrity flag off. *)
Definition noCtsAttestation : Attestation :=
  attestation (statement (VString "14") "nocts") raw.

Definition noCtsResponse : AndroidSafetyNetAttestionResponse :=
  {| Nonce := digest (raw ++ clientDataHash); TimestampMs := 0; ApkPackageName := "";
     ApkDigestSha256 := []; CtsProfileMatch := false;
     ApkCertificateDigestSha256 := []; BasicIntegrity := true |}.

(** Statements the extractor rejects, and responses with a wrong number of
    signature sections or unknown to the parser. *)
Definition numericVerAttestation : Attestation :=
  attestation (statement (VOther "uint64") "android") raw.

Definition unsignedAttestation : Attestation :=
  attestation (statement (VString "14") "unsigned") raw.

Definition garbledAttestation : Attestation :=
  attestation (statement (VString "14") "garbled") raw.

(** The test transaction with the boundary between authenticator data and
    client-data hash moved by one byte. *)
Definition shiftedRaw : bytes := [x01].
Definition shiftedClientDataHash : bytes := [x02; x03; x04].

Definition shiftedAttestation : Attestation :=
  attestation (statement (VString "14") "android") shiftedRaw.

(** The test transaction with another client-data hash. *)
Definition otherClientDataHash : bytes := [x03; x05].

(** A clock that shows the instant of [fixedClock] at its fourth reading. *)
Definition runningClock : Clock := fun k => (1497 + Z.of_nat k)%Z.

(** More tokens: a response signed with a key that is not the leaf's, one
    whose payload is too short to decode, and one with two chains' worth of
    certificates. *)
Definition forged : JWS :=
  {| payload := goodPayload;
     signatures := [ {| x5c := [leafFor "attest.android.com"]; signedWith := 8 |} ] |}.

Definition moreTokens : list (string * JWS) :=
  tokens ++ [ ("forged", forged); ("short", signed "attest.android.com" [x01]) ].

Definition lib2 : Library := library moreTokens.

Definition forgedAttestation : Attestation :=
  attestation (statement (VString "14") "forged") raw.

Definition shortAttestation : Attestation :=
  attestation (statement (VString "14") "short") raw.

(** Decoding that fills in a timestamp and a package name. *)
Definition unmarshalStamped (data : bytes) : string + AndroidSafetyNetAttestionResponse :=
  match unmarshal data with
  | inl err => inl err
  | inr r =>
      inr {| Nonce := Nonce r; TimestampMs := 1500000; ApkPackageName := "com.example";
             ApkDigestSha256 := [x07]; CtsProfileMatch := CtsProfileMatch r;
             ApkCertificateDigestSha256 := [[x08]]; BasicIntegrity := false |}
  end.

(** Chain validation that also reports a second chain. *)
Definition certificatesTwice (h : list Cert) (opts : VerifyOptions)
  : string + list (list Cert) :=
  match certificates h opts with
  | inl err => inl err
  | inr [] => inr []
  | inr (chain :: chains) => inr (chain :: [leafFor "root.example.com"] :: chains)
  end.

(** The test transaction in memory.  In [sharedMemory] authenticator data
    and client-data hash are windows on one buffer, the hash lying in the
    spare capacity of the authenticator data; in [separateMemory] the hash
    has an array of its own. *)
Definition responseSlice : Slice := {| array := 1; offset := 0; len := 7; cap := 7 |}.

Definition memAttestation (rawSlice : Slice) : MemAttestation :=
  {| mFmt := "android-safetynet"; mRaw := rawSlice;
     mAttStmt := <["ver" := MString "14"]> (<["response" := MBytes responseSlice]> ∅) |}.

Definition sharedMemory : gmap nat (list byte) :=
  <[0 := [x01; x02; xee; x03; x04]]> (<[1 := String.list_byte_of_string "android"]> ∅).

Definition sharedRaw : Slice := {| array := 0; offset := 0; len := 2; cap := 5 |}.
Definition sharedHash : Slice := {| array := 0; offset := 3; len := 2; cap := 2 |}.

Definition separateMemory : gmap nat (list byte) :=
  <[0 := [x01; x02; xee; xee; xee]]>
    (<[1 := String.list_byte_of_string "android"]> (<[2 := [x03; x04]]> ∅)).

Definition separateHash : Slice := {| array := 2; offset := 0; len := 2; cap := 2 |}.

End Demo.

(** * Properties *)

Section Pipeline.
Context {F : Foreign}.
Implicit Types (L : Library) (clock : Clock) (a : Attestation) (n : nat).

(** Unfolds the verifier and follows the branches the hypotheses select. *)
Ltac follow :=
  unfold invoke, verifyAndroidSafetynet;
  repeat (simpl;
          match goal with
          | H : ?x = _ |- context [?x] => rewrite H
          | |- context [decide ?P] => destruct (decide P); try congruence
          | H : ?P, H' : ¬ ?P |- _ => destruct (H' H)
          end);
  simpl.

(** *** What an invocation does, stage by stage *)

Lemma run_malformed a cdh :
  malformed_statement (AttStmt a) →
  ∃ msg, verifyAndroidSafetynet a cdh = Ret (Some (WithDebug ErrInvalidAttestation msg)).
Proof.
  intros H. unfold verifyAndroidSafetynet.
  destruct (AttStmt a !! "ver") as [[ver|b|T]|] eqn:Hv; [|eauto..].
  destruct (decide (ver = "")) as [->|Hne]; [eauto|].
  destruct (AttStmt a !! "response") as [[s|rb|T]|] eqn:Hr; [eauto| |eauto..].
  exfalso. destruct H as [H|[H|[(v & H & Hs)|(v & H & Hb)]]]; try congruence.
  rewrite Hv in H. injection H as <-. by apply Hne, Hs.
Qed.

Lemma run_parse_error L clock a cdh n ver rb err :
  extracted (AttStmt a) ver rb →
  jose_ParseSigned L (String.string_of_list_byte rb) = inl err →
  invoke L clock a cdh n
  = {| outcome := Returned (Some (WithDebug ErrInvalidAttestation
                    ("invalid response for android-safetynet: " +:+ ErrorText err)));
       readings := n;
       calls := [Ev (ParseSigned (String.string_of_list_byte rb))] |}.
Proof. intros (Hv & Hne & Hr) Hp. by follow. Qed.

Lemma run_signature_count L clock a cdh n ver rb response :
  extracted (AttStmt a) ver rb →
  jose_ParseSigned L (String.string_of_list_byte rb) = inr response →
  length (Signatures response) ≠ 1 →
  invoke L clock a cdh n
  = {| outcome := Returned (Some (WithDebug ErrInvalidAttestation
         "invalid response for android-safetynet: more or less than 1 signature"));
       readings := n;
       calls := [Ev (ParseSigned (String.string_of_list_byte rb))] |}.
Proof. intros (Hv & Hne & Hr) Hp Hlen. by follow. Qed.

Lemma run_chain_error L clock a cdh n ver rb response sig0 err :
  extracted (AttStmt a) ver rb →
  jose_ParseSigned L (String.string_of_list_byte rb) = inr response →
  Signatures response = [sig0] →
  jose_Certificates L (Protected sig0)
    {| DNSName := "attest.android.com"; CurrentTime := clock n |} = inl err →
  invoke L clock a cdh n
  = {| outcome := Returned (Some (WithCause (WithDebug ErrInvalidAttestation
                    ("invalid response for android-safetynet: " +:+ ErrorText err)) err));
       readings := S n;
       calls := chain_calls clock n rb sig0 |}.
Proof. intros (Hv & Hne & Hr) Hp Hs Hc. by follow. Qed.

Lemma run_chain_no_leaf L clock a cdh n ver rb response sig0 cert :
  extracted (AttStmt a) ver rb →
  jose_ParseSigned L (String.string_of_list_byte rb) = inr response →
  Signatures response = [sig0] →
  jose_Certificates L (Protected sig0)
    {| DNSName := "attest.android.com"; CurrentTime := clock n |} = inr cert →
  head cert ≫= head = None →
  invoke L clock a cdh n
  = {| outcome := Panicked "index out of range [0] with length 0";
       readings := S n;
       calls := chain_calls clock n rb sig0 |}.
Proof.
  intros (Hv & Hne & Hr) Hp Hs Hc Hh.
  destruct cert as [|[|leaf rest] chains]; [| |done]; by follow.
Qed.

Lemma run_chain_valid L clock a cdh n ver rb response sig0 leaf rest chains :
  extracted (AttStmt a) ver rb →
  jose_ParseSigned L (String.string_of_list_byte rb) = inr response →
  Signatures response = [sig0] →
  jose_Certificates L (Protected sig0)
    {| DNSName := "attest.android.com"; CurrentTime := clock n |}
    = inr ((leaf :: rest) :: chains) →
  let after :=
    match jose_Verify L response (PublicKey leaf) with
    | inl err =>
        (Some (WithCause (WithDebug ErrInvalidAttestation
                 ("invalid response for android-safetynet: " +:+ ErrorText err)) err), [])
    | inr payload =>
        match json_Unmarshal L payload with
        | inl err =>
            (Some (WithDebug ErrInvalidAttestation
                     ("invalid response for android-safetynet: " +:+ ErrorText err)),
             [Ev (Unmarshal payload)])
        | inr resp =>
            (if negb (bytes_Equal (sha256_Sum256 L (Raw (AuthData a) ++ cdh)) (Nonce resp))
             then Some invalidNonce
             else if negb (CtsProfileMatch resp) then Some noCtsProfile else None,
             [Ev (Unmarshal payload); Ev (Sum256 (Raw (AuthData a) ++ cdh))])
        end
    end in
  invoke L clock a cdh n
  = {| outcome := Returned after.1;
       readings := S n;
       calls := chain_calls clock n rb sig0
                  ++ Ev (Verify response (PublicKey leaf)) :: after.2 |}.
Proof.
  intros (Hv & Hne & Hr) Hp Hs Hc.
  destruct (jose_Verify L response (PublicKey leaf)) as [err|payload] eqn:Hver;
    [by follow|].
  destruct (json_Unmarshal L payload) as [err|resp] eqn:Hdec; [by follow|].
  follow. by repeat case_match.
Qed.

Lemma run_verified L clock a cdh n resp :
  verified_payload "attest.android.com" L clock (AttStmt a) n resp →
  ∃ rb response sig0 leaf payload,
    invoke L clock a cdh n
    = {| outcome := Returned
           (if negb (bytes_Equal (sha256_Sum256 L (Raw (AuthData a) ++ cdh)) (Nonce resp))
            then Some invalidNonce
            else if negb (CtsProfileMatch resp) then Some noCtsProfile else None);
         readings := S n;
         calls := chain_calls clock n rb sig0
                    ++ [ Ev (Verify response (PublicKey leaf)); Ev (Unmarshal payload);
                         Ev (Sum256 (Raw (AuthData a) ++ cdh)) ] |}.
Proof.
  intros (response & sig0 & leaf & rest & chains & payload
          & (ver & rb & Hx & Hp & Hs) & Hc & Hver & Hdec).
  exists rb, response, sig0, leaf, payload.
  by rewrite (run_chain_valid _ _ _ _ _ _ _ _ _ _ _ _ Hx Hp Hs Hc), Hver, Hdec.
Qed.

Lemma run_reaches_chain L clock a cdh n ver rb response sig0 :
  extracted (AttStmt a) ver rb →
  jose_ParseSigned L (String.string_of_list_byte rb) = inr response →
  Signatures response = [sig0] →
  ∃ later, calls (invoke L clock a cdh n) = chain_calls clock n rb sig0 ++ later.
Proof.
  intros Hx Hp Hs.
  destruct (jose_Certificates L (Protected sig0)
              {| DNSName := "attest.android.com"; CurrentTime := clock n |})
    as [err|cert] eqn:Hc.
  - exists []. by rewrite (run_chain_error _ _ _ _ _ _ _ _ _ _ Hx Hp Hs Hc), app_nil_r.
  - destruct (head cert ≫= head) as [leaf|] eqn:Hh.
    + destruct cert as [|[|leaf' rest] chains]; simplify_eq/=.
      eexists. by rewrite (run_chain_valid _ _ _ _ _ _ _ _ _ _ _ _ Hx Hp Hs Hc).
    + exists []. by rewrite (run_chain_no_leaf _ _ _ _ _ _ _ _ _ _ Hx Hp Hs Hc Hh), app_nil_r.
Qed.

Lemma nonce_check_run L clock a cdh n resp :
  verified_payload "attest.android.com" L clock (AttStmt a) n resp →
  hashed (calls (invoke L clock a cdh n)) = [Raw (AuthData a) ++ cdh] ∧
  (outcome (invoke L clock a cdh n) = Returned (Some invalidNonce)
   ↔ sha256_Sum256 L (Raw (AuthData a) ++ cdh) ≠ Nonce resp).
Proof.
  intros Hv.
  destruct (run_verified L clock a cdh n resp Hv) as (? & ? & ? & ? & ? & ->).
  simpl. split; [done|].
  unfold bytes_Equal. case_bool_decide as Heq; simpl; [|done].
  split; [|done]. by destruct (CtsProfileMatch resp).
Qed.

(** The value of a well-formed [ver] does not occur in the program. *)
Lemma verifier_with_ver a cdh v w :
  v ≠ "" → w ≠ "" →
  verifyAndroidSafetynet (with_ver v a) cdh = verifyAndroidSafetynet (with_ver w a) cdh.
Proof.
  intros Hv Hw. unfold verifyAndroidSafetynet, with_ver; simpl.
  rewrite !lookup_insert_eq, !lookup_insert_ne by done.
  destruct (decide (v = "")); [done|]. destruct (decide (w = "")); [done|].
  reflexivity.
Qed.

(** *** Facts that hold on every path *)

(** Case analysis along the whole verifier. *)
Ltac explore tac :=
  unfold invoke, verifyAndroidSafetynet;
  repeat (simpl; tac; case_match; simplify_eq/=);
  simpl.

Lemma failure_kind L clock a cdh n e :
  outcome (invoke L clock a cdh n) = Returned (Some e) →
  kind e = InvalidAttestation.
Proof. explore idtac; by intros [= <-]. Qed.

Lemma same_reading_same_run L clock1 clock2 n1 n2 a cdh :
  clock1 n1 = clock2 n2 →
  outcome (invoke L clock1 a cdh n1) = outcome (invoke L clock2 a cdh n2) ∧
  calls (invoke L clock1 a cdh n1) = calls (invoke L clock2 a cdh n2).
Proof. intros H. explore ltac:(try rewrite H); done. Qed.

Lemma basicIntegrity_ignored L clock a cdh n b :
  outcome (invoke (with_BasicIntegrity b L) clock a cdh n)
  = outcome (invoke L clock a cdh n).
Proof. explore idtac; done. Qed.

Lemma readings_counted L clock a cdh n :
  let e := invoke L clock a cdh n in
  readings e = clock_readings (calls e) + n ∧
  clock_readings (calls e) ≤ 1 ∧
  validation_times (calls e)
  = (if decide (clock_readings (calls e) = 1) then [clock n] else []).
Proof. explore idtac; repeat split; try reflexivity; cbn; lia. Qed.

Lemma reading_iff_chain_validation L clock a cdh n :
  clock_readings (calls (invoke L clock a cdh n)) = 1
  ↔ ∃ response sig0, reaches_chain_validation L (AttStmt a) response sig0.
Proof.
  split.
  - explore idtac; intros Hone; cbn in Hone; try discriminate Hone;
      match goal with
      | Hs : Signatures ?r = ?x :: ?l, Hl : ¬ S (length ?l) ≠ 1 |- _ =>
          assert (l = []) as -> by (destruct l; [done | exfalso; apply Hl; simpl; lia]);
          exists r, x; eexists _, _; repeat split; eauto
      end.
  - intros (response & sig0 & ver & rb & (Hv & Hne & Hr) & Hp & Hs).
    follow; repeat (case_match; simpl); reflexivity.
Qed.

(** *** Further facts about whole runs *)

Lemma success_only_if L clock a cdh n :
  outcome (invoke L clock a cdh n) = Returned None →
  ∃ resp,
    verified_payload "attest.android.com" L clock (AttStmt a) n resp ∧
    sha256_Sum256 L (Raw (AuthData a) ++ cdh) = Nonce resp ∧
    CtsProfileMatch resp = true.
Proof.
  explore idtac; intros Hout; try discriminate Hout.
  match goal with
  | Hs : Signatures ?r = ?x :: ?l, Hl : ¬ S (length ?l) ≠ 1,
    Hc : jose_Certificates _ _ _ = inr ((?leaf :: ?rest) :: ?chains),
    Hd : json_Unmarshal _ ?payload = inr ?resp,
    Hn : negb (bytes_Equal _ _) = false, Hp : negb (CtsProfileMatch _) = false |- _ =>
      assert (l = []) as -> by (destruct l; [done | exfalso; apply Hl; simpl; lia]);
      apply negb_false_iff in Hn, Hp; apply bool_decide_eq_true in Hn;
      exists resp; split; [exists r, x, leaf, rest, chains, payload|done]
  end.
  split; [|done]. eexists _, _. repeat split; eauto.
Qed.

Lemma only_one {A} (l : list A) : ¬ S (length l) ≠ 1 → l = [].
Proof. destruct l; [done|]. intros H. exfalso. apply H. simpl. lia. Qed.

Lemma cause_only_if L clock a cdh n e c :
  outcome (invoke L clock a cdh n) = Returned (Some e) →
  cause e = Some c →
  ∃ response sig0,
    reaches_chain_validation L (AttStmt a) response sig0 ∧
    let answer := jose_Certificates L (Protected sig0)
                    {| DNSName := "attest.android.com"; CurrentTime := clock n |} in
    (answer = inl c ∨
     ∃ leaf rest chains,
       answer = inr ((leaf :: rest) :: chains) ∧
       jose_Verify L response (PublicKey leaf) = inl c).
Proof.
  explore idtac; intros [= <-] Hc; simplify_eq/=;
    match goal with
    | Hs : Signatures ?r = ?x :: ?l, Hl : ¬ S (length ?l) ≠ 1 |- _ =>
        assert (l = []) as -> by (by apply only_one); exists r, x; split;
          [eexists _, _; repeat split; eauto|]
    end.
  - by left.
  - right. eauto.
Qed.

Lemma calls_in_order L clock a cdh n :
  map call_name (calls (invoke L clock a cdh n)) `prefix_of` pipeline ∧
  ∀ name, name ∈ validation_names (calls (invoke L clock a cdh n)) →
          name = "attest.android.com".
Proof.
  explore idtac; (split; [by eexists|]); cbn; intros name Hin;
    by repeat (apply elem_of_cons in Hin as [->|Hin]; [done|]);
       try apply elem_of_nil in Hin.
Qed.

Lemma unchecked_fields_ignored L clock a cdh n f :
  (∀ data, same_checked_fields (f data) (json_Unmarshal L data)) →
  outcome (invoke (with_Unmarshal f L) clock a cdh n) = outcome (invoke L clock a cdh n).
Proof.
  intros Hf. explore idtac;
    match goal with
    | H1 : f ?d = _, H2 : json_Unmarshal L ?d = _ |- _ =>
        specialize (Hf d); rewrite H1, H2 in Hf; simpl in Hf;
        try destruct Hf as (Hn & Hc); simplify_eq/=; try done; congruence
    | _ => done
    end.
Qed.

Lemma other_certificates_ignored L clock a cdh n g :
  (∀ h opts, same_leaf (g h opts) (jose_Certificates L h opts)) →
  outcome (invoke (with_Certificates g L) clock a cdh n) = outcome (invoke L clock a cdh n).
Proof.
  intros Hg. explore idtac;
    match goal with
    | H1 : g ?h ?o = _, H2 : jose_Certificates L ?h ?o = _ |- _ =>
        specialize (Hg h o); rewrite H1, H2 in Hg; simpl in Hg;
        simplify_eq/=; try done; congruence
    | _ => done
    end.
Qed.

Lemma other_fields_ignored a cdh k :
  k ≠ "ver" → k ≠ "response" →
  (∀ v, verifyAndroidSafetynet (with_field k v a) cdh = verifyAndroidSafetynet a cdh) ∧
  verifyAndroidSafetynet (without_field k a) cdh = verifyAndroidSafetynet a cdh.
Proof.
  intros Hv Hr. unfold verifyAndroidSafetynet, with_field, without_field; simpl.
  split; [intros v|]; by rewrite ?lookup_insert_ne, ?lookup_delete_ne by done.
Qed.

Lemma concatenation_only L clock a a' cdh cdh' n :
  AttStmt a' = AttStmt a →
  Raw (AuthData a') ++ cdh' = Raw (AuthData a) ++ cdh →
  invoke L clock a' cdh' n = invoke L clock a cdh n.
Proof.
  intros Hs Hc. unfold invoke, verifyAndroidSafetynet. by rewrite Hs, Hc.
Qed.

Lemma unhashed_run_ignores_transaction L clock a a' cdh cdh' n :
  AttStmt a' = AttStmt a →
  hashed (calls (invoke L clock a cdh n)) = [] →
  invoke L clock a' cdh' n = invoke L clock a cdh n.
Proof.
  intros Hs. unfold invoke, verifyAndroidSafetynet. rewrite Hs.
  repeat (simpl; case_match; simplify_eq/=); simpl; done.
Qed.

Lemma bad_ver_decides a a' cdh cdh' :
  AttStmt a' !! "ver" = AttStmt a !! "ver" →
  (∀ s, AttStmt a !! "ver" = Some (VString s) → s = "") →
  verifyAndroidSafetynet a' cdh' = verifyAndroidSafetynet a cdh.
Proof.
  intros Heq Hbad. unfold verifyAndroidSafetynet. rewrite Heq.
  destruct (AttStmt a !! "ver") as [[s| |]|]; try done.
  rewrite (Hbad s eq_refl). done.
Qed.

Lemma bad_response_detail a cdh ver v :
  AttStmt a !! "ver" = Some (VString ver) → ver ≠ "" →
  AttStmt a !! "response" = Some v → (∀ b, v ≠ VBytes b) →
  verifyAndroidSafetynet a cdh
  = Ret (Some (WithDebug ErrInvalidAttestation
                 "invalid response for android-safetynet, is of invalid type []uint8")).
Proof.
  intros Hv Hne Hr Hb. unfold verifyAndroidSafetynet. rewrite Hv, Hr.
  destruct (decide (ver = "")); [done|].
  destruct v as [s|b|T]; [done| |done]. by destruct (Hb b).
Qed.

(** *** The taxonomy against the verifier *)

Lemma reported_sound L clock a cdh n k e :
  reported L clock a cdh n k e →
  outcome (invoke L clock a cdh n) = Returned (Some e).
Proof.
  destruct 1 as [Hv|v Hv Hs|Hv|ver Hv Hne Hr|ver v Hv Hne Hr Hb
                 |ver rb err Hx Hp|ver rb response Hx Hp Hlen
                 |response sig0 err (ver & rb & Hx & Hp & Hs) Hc
                 |response sig0 leaf rest chains err (ver & rb & Hx & Hp & Hs) Hc Hver
                 |response sig0 leaf rest chains payload err
                    (ver & rb & Hx & Hp & Hs) Hc Hver Hdec
                 |resp Hvp Hn|resp Hvp Hn Hcts].
  - by follow.
  - destruct v as [s| |]; [by destruct (Hs s)|by follow..].
  - by follow.
  - by follow.
  - destruct v as [|b|]; [by follow|by destruct (Hb b)|by follow].
  - by rewrite (run_parse_error _ _ _ _ _ _ _ _ Hx Hp).
  - by rewrite (run_signature_count _ _ _ _ _ _ _ _ Hx Hp Hlen).
  - by rewrite (run_chain_error _ _ _ _ _ _ _ _ _ _ Hx Hp Hs Hc).
  - by rewrite (run_chain_valid _ _ _ _ _ _ _ _ _ _ _ _ Hx Hp Hs Hc), Hver.
  - by rewrite (run_chain_valid _ _ _ _ _ _ _ _ _ _ _ _ Hx Hp Hs Hc), Hver, Hdec.
  - by apply (nonce_check_run L clock a cdh n resp Hvp).
  - destruct (run_verified L clock a cdh n resp Hvp) as (? & ? & ? & ? & ? & ->).
    simpl. unfold bytes_Equal. rewrite bool_decide_eq_true_2 by done. by rewrite Hcts.
Qed.

Lemma no_cause_kind (k : FailureKind) :
  k ≠ UntrustedCertificate → k ≠ SignatureInvalid →
  is_Some (@None error) ↔ k = UntrustedCertificate ∨ k = SignatureInvalid.
Proof. intros H1 H2. split; [by intros [? [=]]|by intros [?|?]]. Qed.

Lemma cause_kind (k : FailureKind) (c : error) :
  k = UntrustedCertificate ∨ k = SignatureInvalid →
  is_Some (Some c) ↔ k = UntrustedCertificate ∨ k = SignatureInvalid.
Proof. intros Hk. split; [done|by eexists]. Qed.

Ltac reach := eexists _, _; repeat split; eauto.
Ltac decoded :=
  eexists _, _, _, _, _, _; split; [reach | repeat split; eauto].
Ltac premise :=
  solve [ eauto | done | intros; discriminate | repeat split; eauto | reach | decoded ].
Ltac pick c :=
  solve [ eexists; split;
          [ eapply c; premise
          | first [ by apply no_cause_kind | apply cause_kind; auto ] ] ].

Lemma reported_complete L clock a cdh n e :
  outcome (invoke L clock a cdh n) = Returned (Some e) →
  ∃ k, reported L clock a cdh n k e ∧
       (is_Some (cause e) ↔ k = UntrustedCertificate ∨ k = SignatureInvalid).
Proof.
  explore idtac; intros [= <-];
    try match goal with
        | Hs : Signatures ?r = ?x :: ?l, Hl : ¬ S (length ?l) ≠ 1 |- _ =>
            assert (l = []) as -> by (by apply only_one)
        end;
    unfold bytes_Equal in *;
    repeat match goal with
           | H : negb _ = true |- _ => apply negb_true_iff in H
           | H : negb _ = false |- _ => apply negb_false_iff in H
           | H : bool_decide _ = true |- _ => apply bool_decide_eq_true in H
           | H : bool_decide _ = false |- _ => apply bool_decide_eq_false in H
           end;
    first [ pick rep_missing_ver | pick rep_ver_type | pick rep_ver_empty
          | pick rep_missing_response | pick rep_response_type
          | pick rep_unparsable | pick rep_signature_count
          | pick rep_untrusted | pick rep_signature | pick rep_undecodable
          | pick rep_nonce | pick rep_policy | idtac ].
  - exists MalformedStatement. split; [|by apply no_cause_kind].
    by apply (rep_ver_type L clock a cdh n (VBytes b)).
  - exists MalformedStatement. split; [|by apply no_cause_kind].
    by apply (rep_ver_type L clock a cdh n (VOther T)).
Qed.

End Pipeline.

(** *** Slices under [append] *)

Lemma elements_after_append (m : gmap nat (list byte)) (raw s : Slice) (data : bytes) :
  apart m raw (length data) s →
  elements (go_append m raw data).1 s = elements m s.
Proof.
  intros ((bs & Hbs) & Hwin). unfold go_append.
  destruct (decide (len raw + length data ≤ cap raw)) as [Hfit|Hgrow]; simpl.
  - unfold elements, backing.
    destruct (decide (array s = array raw)) as [Heq|Hne];
      [|by rewrite lookup_alter_ne].
    rewrite Heq, lookup_alter_eq. rewrite Heq in Hbs. rewrite Hbs. simpl.
    destruct Hwin as [Hne|Hwin]; [done|].
    apply list_eq; intros j.
    destruct (decide (j < len s)) as [Hj|Hj].
    + rewrite !lookup_take_lt, !lookup_drop by done.
      destruct Hwin as [Hbefore|Hafter].
      * apply list_lookup_inserts_lt. lia.
      * apply list_lookup_inserts_ge. lia.
    + by rewrite !lookup_take_ge by lia.
  - unfold elements, backing. rewrite lookup_insert_ne; [done|].
    intros Hfresh. apply (is_fresh (dom m)). rewrite Hfresh.
    apply elem_of_dom. by exists bs.
Qed.

Section MemoryFacts.
Context {F : Foreign}.

Lemma call_keeps_arguments (L : Library) (clock : Clock) (ga : MemAttestation)
    (cdh : Slice) (m : gmap nat (list byte)) (n : nat) :
  unaliased m ga cdh →
  let m' := (call L clock ga cdh m n).2 in
  load m' ga = load m ga ∧ elements m' cdh = elements m cdh.
Proof.
  intros (Hraw & Hcdh & Hstmt). unfold call; simpl.
  destruct (hashed (calls (invoke L clock (load m ga) (elements m cdh) n)));
    [done|].
  split.
  - unfold load. f_equal.
    + f_equal. apply elements_after_append. split; [done|]. right; left. lia.
    + apply map_eq; intros k. rewrite !lookup_fmap.
      destruct (mAttStmt ga !! k) as [[s|s|T]|] eqn:Hk; simpl; try done.
      do 2 f_equal. apply elements_after_append. apply (Hstmt k _ Hk).
  - by apply elements_after_append.
Qed.

End MemoryFacts.

(** ** The verifier on the test data *)

Example demo_success_calls :
  calls (invoke Demo.lib Demo.fixedClock Demo.androidAttestation Demo.clientDataHash 0)
  = chain_calls Demo.fixedClock 0 (String.list_byte_of_string "android")
      {| Demo.x5c := [Demo.leafFor "attest.android.com"]; Demo.signedWith := 7 |}
    ++ [ Ev (Verify (Demo.signed "attest.android.com" Demo.goodPayload) 7%Z);
         Ev (Unmarshal Demo.goodPayload);
         Ev (Sum256 [x01; x02; x03; x04]) ].
Proof. by vm_compute. Qed.

Example demo_numeric_ver :
  invoke Demo.lib Demo.fixedClock Demo.numericVerAttestation Demo.clientDataHash 5
  = {| outcome := Returned (Some (WithDebug ErrInvalidAttestation
         "invalid ver for android-safetynet, is of invalid type uint64"));
       readings := 5; calls := [] |}.
Proof. by vm_compute. Qed.

Example demo_unknown_token :
  invoke Demo.lib Demo.fixedClock Demo.garbledAttestation Demo.clientDataHash 5
  = {| outcome := Returned (Some (WithDebug ErrInvalidAttestation
         "invalid response for android-safetynet: square/go-jose: compact JWS format must have three parts"));
       readings := 5; calls := [Ev (ParseSigned "garbled")] |}.
Proof. by vm_compute. Qed.

Example demo_expired_chain :
  outcome (invoke Demo.lib (fun _ => 2001%Z) Demo.androidAttestation Demo.clientDataHash 0)
  = Returned (Some (WithCause (WithDebug ErrInvalidAttestation
       "invalid response for android-safetynet: x509: certificate has expired or is not yet valid")
       "x509: certificate has expired or is not yet valid")).
Proof. by vm_compute. Qed.

(** ** Properties of the specification *)

(** C1, as amended: with version string "14", a well-formed signed response
    whose embedded chain validates for the identity attest.android.com at the
    clock reading, a decoded payload whose device-integrity flag is true and
    whose nonce is the SHA-256 of authenticatorData.raw followed by
    clientDataHash, the verifier returns nil. *)
Theorem end_to_end_success {F : Foreign} (L : Library) (clock : Clock)
    (a : Attestation) (cdh : bytes) (n : nat)
    (resp : AndroidSafetyNetAttestionResponse) :
  AttStmt a !! "ver" = Some (VString "14") →
  verified_payload "attest.android.com" L clock (AttStmt a) n resp →
  CtsProfileMatch resp = true →
  Nonce resp = sha256_Sum256 L (Raw (AuthData a) ++ cdh) →
  outcome (invoke L clock a cdh n) = Returned None.
Proof.
  intros _ Hv Hcts Hnonce.
  destruct (run_verified L clock a cdh n resp Hv) as (? & ? & ? & ? & ? & ->).
  simpl. unfold bytes_Equal. rewrite bool_decide_eq_true_2 by done.
  by rewrite Hcts.
Qed.

Lemma demo_android_verified :
  verified_payload "attest.android.com" Demo.lib Demo.fixedClock
    (AttStmt Demo.androidAttestation) 0 Demo.goodResponse.
Proof.
  exists (Demo.signed "attest.android.com" Demo.goodPayload),
    {| Demo.x5c := [Demo.leafFor "attest.android.com"]; Demo.signedWith := 7 |},
    (Demo.leafFor "attest.android.com"), [], [], Demo.goodPayload.
  split; [|by vm_compute].
  exists "14", (String.list_byte_of_string "android").
  split; [|by vm_compute]. split; [by vm_compute|]. split; [done|by vm_compute].
Defined.

Lemma end_to_end_success_witness :
  outcome (invoke Demo.lib Demo.fixedClock Demo.androidAttestation Demo.clientDataHash 0)
  = Returned None.
Proof.
  apply (end_to_end_success Demo.lib Demo.fixedClock Demo.androidAttestation
           Demo.clientDataHash 0 Demo.goodResponse).
  - vm_compute; reflexivity.
  - exact demo_android_verified.
  - reflexivity.
  - vm_compute; reflexivity.
Defined.

(** C1 as stated fails: a chain issued to attest.example.com, valid at the
    clock reading, with a payload whose flag is true and whose nonce matches,
    is rejected at chain validation, because the verifier asks for
    attest.android.com. *)
Lemma end_to_end_example_com_rejected :
  AttStmt Demo.exampleAttestation !! "ver" = Some (VString "14") ∧
  verified_payload "attest.example.com" Demo.lib Demo.fixedClock
    (AttStmt Demo.exampleAttestation) 0 Demo.goodResponse ∧
  CtsProfileMatch Demo.goodResponse = true ∧
  Nonce Demo.goodResponse
  = sha256_Sum256 Demo.lib (Raw (AuthData Demo.exampleAttestation) ++ Demo.clientDataHash) ∧
  outcome (invoke Demo.lib Demo.fixedClock Demo.exampleAttestation Demo.clientDataHash 0)
  = Returned (Some (WithCause
       (WithDebug ErrInvalidAttestation
          "invalid response for android-safetynet: x509: certificate is not valid for the requested name")
       "x509: certificate is not valid for the requested name")).
Proof.
  split; [by vm_compute|]. split; [|by vm_compute].
  exists (Demo.signed "attest.example.com" Demo.goodPayload),
    {| Demo.x5c := [Demo.leafFor "attest.example.com"]; Demo.signedWith := 7 |},
    (Demo.leafFor "attest.example.com"), [], [], Demo.goodPayload.
  split; [|by vm_compute].
  exists "14", (String.list_byte_of_string "example").
  split; [|by vm_compute]. split; [by vm_compute|]. split; [done|by vm_compute].
Qed.

(** C2, as amended: every failure of the verifier carries one and the same
    stable error kind, ErrInvalidAttestation, whatever its trigger.  The
    trigger shows only in the rest of the failure: the failure returned is
    the one the taxonomy relation assigns to a trigger that fired (its
    diagnostic detail, and its wrapped cause), it is the only failure any
    trigger assigns on these inputs, and it wraps a cause exactly when the
    trigger is a chain validation or a signature verification failure. *)
Theorem single_error_kind {F : Foreign} (L : Library) (clock : Clock)
    (a : Attestation) (cdh : bytes) (n : nat) (e : Error) :
  outcome (invoke L clock a cdh n) = Returned (Some e) →
  kind e = InvalidAttestation ∧
  (∃ k, reported L clock a cdh n k e ∧
        (is_Some (cause e) ↔ k = UntrustedCertificate ∨ k = SignatureInvalid)) ∧
  (∀ k' e', reported L clock a cdh n k' e' → e' = e).
Proof.
  intros Hout. split; [by apply (failure_kind L clock a cdh n)|].
  split; [by apply reported_complete|].
  intros k' e' Hrep. apply reported_sound in Hrep. congruence.
Qed.

Lemma single_error_kind_witness :
  let e := WithDebug (F := Demo.foreign) ErrInvalidAttestation
             "missing ver for android-safetynet" in
  kind e = InvalidAttestation ∧
  (∃ k, reported Demo.lib Demo.fixedClock Demo.missingVerAttestation
          Demo.clientDataHash 0 k e ∧
        (is_Some (cause e) ↔ k = UntrustedCertificate ∨ k = SignatureInvalid)) ∧
  (∀ k' e', reported Demo.lib Demo.fixedClock Demo.missingVerAttestation
              Demo.clientDataHash 0 k' e' → e' = e).
Proof.
  apply (single_error_kind Demo.lib Demo.fixedClock Demo.missingVerAttestation
           Demo.clientDataHash 0).
  vm_compute; reflexivity.
Defined.

(** C2 as stated fails: a missing required field and a nonce mismatch are
    reported with the same stable kind, so no classification of kinds tells
    MalformedStatement from NonceMismatch. *)
Lemma error_kinds_not_distinct :
  ∃ e1 e2 : Error,
    outcome (invoke Demo.lib Demo.fixedClock Demo.missingVerAttestation
               Demo.clientDataHash 0) = Returned (Some e1) ∧
    debug e1 = "missing ver for android-safetynet" ∧
    outcome (invoke Demo.lib Demo.fixedClock Demo.staleAttestation
               Demo.clientDataHash 0) = Returned (Some e2) ∧
    debug e2 = "invalid response for android-safetynet: invalid nonce" ∧
    kind e1 = kind e2 ∧
    ¬ ∃ classify : ErrKind → FailureKind,
        classify (kind e1) = MalformedStatement ∧ classify (kind e2) = NonceMismatch.
Proof.
  eexists _, _. split; [by vm_compute|]. split; [done|].
  split; [by vm_compute|]. split; [done|]. split; [done|].
  intros (classify & H1 & H2). simpl in *. congruence.
Qed.

(** C3: once all earlier stages have succeeded, the verifier hashes exactly
    authenticatorData.raw followed by clientDataHash, with nothing between
    or before them, and returns the nonce failure if and only if that digest
    differs from the payload's nonce; a nonce that is only a proper prefix of
    the digest is a mismatch. *)
Theorem nonce_binding_check {F : Foreign} (L : Library) (clock : Clock)
    (a : Attestation) (cdh : bytes) (n : nat)
    (resp : AndroidSafetyNetAttestionResponse) :
  verified_payload "attest.android.com" L clock (AttStmt a) n resp →
  let e := invoke L clock a cdh n in
  let expectedNonce := sha256_Sum256 L (Raw (AuthData a) ++ cdh) in
  hashed (calls e) = [Raw (AuthData a) ++ cdh] ∧
  (outcome e = Returned (Some invalidNonce) ↔ expectedNonce ≠ Nonce resp) ∧
  (∀ more, more ≠ [] → expectedNonce = Nonce resp ++ more →
     outcome e = Returned (Some invalidNonce)).
Proof.
  intros Hv e expectedNonce.
  destruct (nonce_check_run L clock a cdh n resp Hv) as (Hh & Hiff).
  split; [done|]. split; [done|].
  intros more Hmore Hext. apply Hiff. fold expectedNonce. rewrite Hext.
  intros Heq. apply Hmore.
  apply (f_equal length) in Heq. rewrite length_app in Heq.
  destruct more; [done|simpl in Heq; lia].
Qed.

Lemma demo_stale_verified :
  verified_payload "attest.android.com" Demo.lib Demo.fixedClock
    (AttStmt Demo.staleAttestation) 0 Demo.staleResponse.
Proof.
  exists (Demo.signed "attest.android.com" Demo.staleNoncePayload),
    {| Demo.x5c := [Demo.leafFor "attest.android.com"]; Demo.signedWith := 7 |},
    (Demo.leafFor "attest.android.com"), [], [], Demo.staleNoncePayload.
  split; [|by vm_compute].
  exists "14", (String.list_byte_of_string "stale").
  split; [|by vm_compute]. split; [by vm_compute|]. split; [done|by vm_compute].
Defined.

Lemma nonce_binding_check_witness :
  outcome (invoke Demo.lib Demo.fixedClock Demo.staleAttestation Demo.clientDataHash 0)
  = Returned (Some invalidNonce).
Proof.
  apply (nonce_binding_check Demo.lib Demo.fixedClock Demo.staleAttestation
           Demo.clientDataHash 0 Demo.staleResponse demo_stale_verified).
  vm_compute; discriminate.
Defined.

Lemma demo_nocts_verified :
  verified_payload "attest.android.com" Demo.lib Demo.fixedClock
    (AttStmt Demo.noCtsAttestation) 0 Demo.noCtsResponse.
Proof.
  exists (Demo.signed "attest.android.com" Demo.noCtsPayload),
    {| Demo.x5c := [Demo.leafFor "attest.android.com"]; Demo.signedWith := 7 |},
    (Demo.leafFor "attest.android.com"), [], [], Demo.noCtsPayload.
  split; [|by vm_compute].
  exists "14", (String.list_byte_of_string "nocts").
  split; [|by vm_compute]. split; [by vm_compute|]. split; [done|by vm_compute].
Defined.

(** C4: with chain, signature and payload decoding valid and the nonce
    matching, the verifier returns the policy failure exactly when
    ctsProfileMatch is false and returns nil when it is true; whatever value
    basicIntegrity decodes to, the result is the same. *)
Theorem integrity_policy_gating {F : Foreign} (L : Library) (clock : Clock)
    (a : Attestation) (cdh : bytes) (n : nat)
    (resp : AndroidSafetyNetAttestionResponse) :
  verified_payload "attest.android.com" L clock (AttStmt a) n resp →
  Nonce resp = sha256_Sum256 L (Raw (AuthData a) ++ cdh) →
  let e := invoke L clock a cdh n in
  (outcome e = Returned (Some noCtsProfile) ↔ CtsProfileMatch resp = false) ∧
  (CtsProfileMatch resp = true → outcome e = Returned None) ∧
  (∀ b, outcome (invoke (with_BasicIntegrity b L) clock a cdh n) = outcome e).
Proof.
  intros Hv Hnonce e.
  destruct (run_verified L clock a cdh n resp Hv) as (? & ? & ? & ? & ? & He).
  split; [|split].
  - subst e; rewrite He; simpl. unfold bytes_Equal.
    rewrite bool_decide_eq_true_2 by done. simpl.
    destruct (CtsProfileMatch resp); simpl; split; congruence.
  - intros Hcts. subst e; rewrite He; simpl. unfold bytes_Equal.
    rewrite bool_decide_eq_true_2 by done. by rewrite Hcts.
  - intros b. apply basicIntegrity_ignored.
Qed.

Lemma integrity_policy_gating_witness :
  outcome (invoke Demo.lib Demo.fixedClock Demo.noCtsAttestation Demo.clientDataHash 0)
  = Returned (Some noCtsProfile).
Proof.
  apply (integrity_policy_gating Demo.lib Demo.fixedClock Demo.noCtsAttestation
           Demo.clientDataHash 0 Demo.noCtsResponse demo_nocts_verified).
  - vm_compute; reflexivity.
  - reflexivity.
Defined.

(** C5: when [ver] or [response] is absent, or [ver] is not a non-empty
    string, or [response] is not a byte sequence, the verifier is a bare
    return of an ErrInvalidAttestation failure: it makes no call to
    the parser, the clock, chain validation, signature verification, the
    decoder or the hash, under any library. *)
Theorem malformed_statement_fails_first {F : Foreign} (a : Attestation) (cdh : bytes) :
  malformed_statement (AttStmt a) →
  ∃ msg,
    verifyAndroidSafetynet a cdh = Ret (Some (WithDebug ErrInvalidAttestation msg)) ∧
    ∀ (L : Library) (clock : Clock) (n : nat),
      invoke L clock a cdh n
      = {| outcome := Returned (Some (WithDebug ErrInvalidAttestation msg));
           readings := n; calls := [] |}.
Proof.
  intros H. destruct (run_malformed a cdh H) as (msg & Hmsg).
  exists msg. split; [done|]. intros L clock n. unfold invoke. by rewrite Hmsg.
Qed.

Lemma malformed_statement_fails_first_witness :
  ∃ msg,
    verifyAndroidSafetynet Demo.numericVerAttestation Demo.clientDataHash
    = Ret (Some (WithDebug ErrInvalidAttestation msg)) ∧
    ∀ (L : Library) (clock : Clock) (n : nat),
      invoke L clock Demo.numericVerAttestation Demo.clientDataHash n
      = {| outcome := Returned (Some (WithDebug ErrInvalidAttestation msg));
           readings := n; calls := [] |}.
Proof.
  apply (malformed_statement_fails_first Demo.numericVerAttestation Demo.clientDataHash).
  right; right; left. exists (VOther "uint64"). split; [by vm_compute|]. discriminate.
Defined.

(** C6: after successful field extraction, the verifier fails right after
    parsing, having called nothing but the parser, exactly when parsing the
    response bytes fails or the parsed structure does not have exactly one
    signature section; with exactly one, it goes on to read the clock and to
    validate the chain of that section for attest.android.com. *)
Theorem signature_structure_check {F : Foreign} (L : Library) (clock : Clock)
    (a : Attestation) (cdh : bytes) (n : nat) (ver : string) (rb : bytes) :
  extracted (AttStmt a) ver rb →
  let e := invoke L clock a cdh n in
  let input := String.string_of_list_byte rb in
  (failed e ∧ calls e = [Ev (ParseSigned input)]
   ↔ match jose_ParseSigned L input with
     | inl _ => True
     | inr response => length (Signatures response) ≠ 1
     end) ∧
  (∀ response sig0,
     jose_ParseSigned L input = inr response → Signatures response = [sig0] →
     ∃ later, calls e = chain_calls clock n rb sig0 ++ later).
Proof.
  intros Hx e input. split.
  - subst e input.
    destruct (jose_ParseSigned L (String.string_of_list_byte rb))
      as [err|response] eqn:Hp.
    + rewrite (run_parse_error _ _ _ _ _ _ _ _ Hx Hp). split; [done|].
      intros _. split; [by eexists|done].
    + destruct (decide (length (Signatures response) = 1)) as [Hone|Hlen].
      * destruct (Signatures response) as [|sig0 [|]] eqn:Hs; try done.
        destruct (run_reaches_chain L clock a cdh n _ _ _ _ Hx Hp Hs) as (later & ->).
        split; [|done]. by intros (_ & [=]).
      * rewrite (run_signature_count _ _ _ _ _ _ _ _ Hx Hp Hlen). split; [done|].
        intros _. split; [by eexists|done].
  - intros response sig0 Hp Hs. by apply (run_reaches_chain L clock a cdh n ver rb response).
Qed.

Lemma signature_structure_check_witness :
  failed (invoke Demo.lib Demo.fixedClock Demo.unsignedAttestation Demo.clientDataHash 0) ∧
  calls (invoke Demo.lib Demo.fixedClock Demo.unsignedAttestation Demo.clientDataHash 0)
  = [Ev (ParseSigned "unsigned")].
Proof.
  apply (signature_structure_check Demo.lib Demo.fixedClock Demo.unsignedAttestation
           Demo.clientDataHash 0 "14" (String.list_byte_of_string "unsigned")).
  - split; [by vm_compute|]. split; [done|by vm_compute].
  - vm_compute. discriminate.
Defined.

(** C7, as amended: when exactly one of authenticatorData.raw and
    clientDataHash is changed, or both are changed with the length of
    clientDataHash kept, the byte string that is hashed changes; and whenever
    the digest of the modified pair differs from that of the original pair,
    verifying the modified pair against an otherwise valid payload captured
    for the original pair fails at the nonce check. *)
Theorem binding_without_boundary_shift {F : Foreign} (L : Library) (clock : Clock)
    (a a' : Attestation) (cdh cdh' : bytes) (n : nat)
    (resp : AndroidSafetyNetAttestionResponse) :
  AttStmt a' = AttStmt a →
  verified_payload "attest.android.com" L clock (AttStmt a) n resp →
  Nonce resp = sha256_Sum256 L (Raw (AuthData a) ++ cdh) →
  (Raw (AuthData a') ≠ Raw (AuthData a) ∧ cdh' = cdh) ∨
  (Raw (AuthData a') = Raw (AuthData a) ∧ cdh' ≠ cdh) ∨
  (length cdh' = length cdh ∧ (Raw (AuthData a'), cdh') ≠ (Raw (AuthData a), cdh)) →
  hashed (calls (invoke L clock a' cdh' n)) ≠ hashed (calls (invoke L clock a cdh n)) ∧
  (sha256_Sum256 L (Raw (AuthData a') ++ cdh') ≠ sha256_Sum256 L (Raw (AuthData a) ++ cdh) →
   outcome (invoke L clock a' cdh' n) = Returned (Some invalidNonce)).
Proof.
  intros Hstmt Hv Hnonce Hchg.
  assert (Hv' : verified_payload "attest.android.com" L clock (AttStmt a') n resp)
    by by rewrite Hstmt.
  destruct (nonce_check_run L clock a cdh n resp Hv) as (Hh & _).
  destruct (nonce_check_run L clock a' cdh' n resp Hv') as (Hh' & Hiff').
  split.
  - rewrite Hh, Hh'. intros [= Heq]. destruct Hchg as [(Hr & ->)|[(Hr & Hc)|(Hlen & Hne)]].
    + by apply app_inv_tail in Heq.
    + rewrite Hr in Heq. by apply app_inv_head in Heq.
    + apply app_inj_2 in Heq as (? & ?); [|done]. apply Hne. congruence.
  - intros Hdiff. apply Hiff'. congruence.
Qed.

Lemma binding_without_boundary_shift_witness :
  outcome (invoke Demo.lib Demo.fixedClock Demo.androidAttestation
             Demo.otherClientDataHash 0)
  = Returned (Some invalidNonce).
Proof.
  apply (binding_without_boundary_shift Demo.lib Demo.fixedClock
           Demo.androidAttestation Demo.androidAttestation
           Demo.clientDataHash Demo.otherClientDataHash 0 Demo.goodResponse).
  - reflexivity.
  - exact demo_android_verified.
  - vm_compute; reflexivity.
  - right; left. split; [reflexivity | vm_compute; discriminate].
  - vm_compute; discriminate.
Defined.

(** C7 as stated fails: moving one byte from the head of clientDataHash to
    the tail of authenticatorData.raw changes both components and leaves the
    hashed byte string, hence the expected nonce under every hash function,
    unchanged; the payload captured for the original pair verifies for the
    modified pair. *)
Lemma boundary_shift_same_nonce :
  Demo.shiftedRaw ≠ Demo.raw ∧
  Demo.shiftedClientDataHash ≠ Demo.clientDataHash ∧
  (∀ (F : Foreign) (L : Library),
     sha256_Sum256 L (Demo.shiftedRaw ++ Demo.shiftedClientDataHash)
     = sha256_Sum256 L (Demo.raw ++ Demo.clientDataHash)) ∧
  outcome (invoke Demo.lib Demo.fixedClock Demo.androidAttestation
             Demo.clientDataHash 0) = Returned None ∧
  AttStmt Demo.shiftedAttestation = AttStmt Demo.androidAttestation ∧
  hashed (calls (invoke Demo.lib Demo.fixedClock Demo.shiftedAttestation
                   Demo.shiftedClientDataHash 0))
  = hashed (calls (invoke Demo.lib Demo.fixedClock Demo.androidAttestation
                     Demo.clientDataHash 0)) ∧
  outcome (invoke Demo.lib Demo.fixedClock Demo.shiftedAttestation
             Demo.shiftedClientDataHash 0) = Returned None.
Proof.
  split; [discriminate|]. split; [discriminate|]. split; [done|].
  split; [by vm_compute|]. split; [done|]. split; by vm_compute.
Qed.


Lemma demo_separate_unaliased :
  unaliased Demo.separateMemory (Demo.memAttestation Demo.sharedRaw) Demo.separateHash.
Proof.
  split; [by eexists|]. split.
  - split; [by eexists|]. left. discriminate.
  - unfold Demo.memAttestation; simpl.
    apply map_Forall_insert_2; [exact I|].
    apply map_Forall_insert_2; [|apply map_Forall_empty].
    split; [by eexists|]. left. discriminate.
Defined.



(** C9: an invocation reads the clock at most once; it reads it exactly once
    when extraction and parsing succeed with one signature section, and not
    at all when an earlier stage fails; every chain validation it requests
    is given that one reading as its current time; and the package clock is
    initially the wall clock time.Now. *)
Theorem single_clock_reading {F : Foreign} (L : Library) (clock : Clock)
    (a : Attestation) (cdh : bytes) (n : nat) :
  let e := invoke L clock a cdh n in
  readings e = clock_readings (calls e) + n ∧
  clock_readings (calls e) ≤ 1 ∧
  (clock_readings (calls e) = 1
   ↔ ∃ response sig0, reaches_chain_validation L (AttStmt a) response sig0) ∧
  validation_times (calls e)
  = (if decide (clock_readings (calls e) = 1) then [clock n] else []) ∧
  now_initial L = time_Now L.
Proof.
  intros e. destruct (readings_counted L clock a cdh n) as (Hr & Hle & Ht).
  repeat split; try done; by apply reading_iff_chain_validation.
Qed.

(** C10: two statements that differ only in the value of [ver], a non-empty
    string in both, give the same program, hence the same result, clock
    readings and external calls under every library and clock. *)
Theorem version_value_noninterference {F : Foreign} (a : Attestation) (cdh : bytes)
    (v1 v2 : string) :
  v1 ≠ "" → v2 ≠ "" →
  verifyAndroidSafetynet (with_ver v1 a) cdh = verifyAndroidSafetynet (with_ver v2 a) cdh ∧
  ∀ (L : Library) (clock : Clock) (n : nat),
    invoke L clock (with_ver v1 a) cdh n = invoke L clock (with_ver v2 a) cdh n.
Proof.
  intros H1 H2.
  assert (Heq : verifyAndroidSafetynet (with_ver v1 a) cdh
                = verifyAndroidSafetynet (with_ver v2 a) cdh)
    by by apply verifier_with_ver.
  split; [done|]. intros L clock n. unfold invoke. by rewrite Heq.
Qed.

Lemma version_value_noninterference_witness :
  verifyAndroidSafetynet (with_ver "14" Demo.staleAttestation) Demo.clientDataHash
  = verifyAndroidSafetynet (with_ver "2" Demo.staleAttestation) Demo.clientDataHash ∧
  ∀ (L : Library) (clock : Clock) (n : nat),
    invoke L clock (with_ver "14" Demo.staleAttestation) Demo.clientDataHash n
    = invoke L clock (with_ver "2" Demo.staleAttestation) Demo.clientDataHash n.
Proof.
  apply (version_value_noninterference Demo.staleAttestation Demo.clientDataHash "14" "2");
    discriminate.
Defined.

(** ** Further properties of the verifier *)

(** X1: the verifier returns nil exactly when every stage passes: the
    statement is well formed, the response parses with one signature section,
    its chain validates for attest.android.com at the clock reading with a
    leaf, the signature verifies under the leaf key, the payload decodes, its
    nonce is the digest of authenticatorData.raw followed by clientDataHash,
    and ctsProfileMatch is true. *)
Theorem success_exactly_when_all_checks_pass {F : Foreign} (L : Library)
    (clock : Clock) (a : Attestation) (cdh : bytes) (n : nat) :
  outcome (invoke L clock a cdh n) = Returned None
  ↔ ∃ resp,
      verified_payload "attest.android.com" L clock (AttStmt a) n resp ∧
      sha256_Sum256 L (Raw (AuthData a) ++ cdh) = Nonce resp ∧
      CtsProfileMatch resp = true.
Proof.
  split; [apply success_only_if|].
  intros (resp & Hv & Hn & Hc).
  destruct (run_verified L clock a cdh n resp Hv) as (? & ? & ? & ? & ? & ->).
  simpl. unfold bytes_Equal. rewrite bool_decide_eq_true_2 by done. by rewrite Hc.
Qed.

(** X2: when chain validation fails, the verifier returns an
    ErrInvalidAttestation failure whose detail quotes the validation error
    and whose cause is that error, after one clock reading; the signature is
    not verified, the payload is not decoded and nothing is hashed. *)
Theorem chain_validation_failure {F : Foreign} (L : Library) (clock : Clock)
    (a : Attestation) (cdh : bytes) (n : nat) (ver : string) (rb : bytes)
    (response : JSONWebSignature) (sig0 : Signature) (err : error) :
  extracted (AttStmt a) ver rb →
  jose_ParseSigned L (String.string_of_list_byte rb) = inr response →
  Signatures response = [sig0] →
  jose_Certificates L (Protected sig0)
    {| DNSName := "attest.android.com"; CurrentTime := clock n |} = inl err →
  invoke L clock a cdh n
  = {| outcome := Returned (Some
         {| kind := InvalidAttestation;
            debug := "invalid response for android-safetynet: " +:+ ErrorText err;
            cause := Some err |});
       readings := S n;
       calls := chain_calls clock n rb sig0 |}.
Proof. apply run_chain_error. Qed.

Lemma demo_example_extracted :
  extracted (AttStmt Demo.exampleAttestation) "14" (String.list_byte_of_string "example").
Proof. split; [by vm_compute|]. split; [done|by vm_compute]. Defined.

Lemma chain_validation_failure_witness :
  invoke Demo.lib Demo.fixedClock Demo.exampleAttestation Demo.clientDataHash 0
  = {| outcome := Returned (Some
         {| kind := InvalidAttestation;
            debug := "invalid response for android-safetynet: "
                       +:+ "x509: certificate is not valid for the requested name";
            cause := Some "x509: certificate is not valid for the requested name" |});
       readings := 1;
       calls := chain_calls Demo.fixedClock 0 (String.list_byte_of_string "example")
                  {| Demo.x5c := [Demo.leafFor "attest.example.com"];
                     Demo.signedWith := 7 |} |}.
Proof.
  apply (chain_validation_failure Demo.lib Demo.fixedClock Demo.exampleAttestation
           Demo.clientDataHash 0 "14" (String.list_byte_of_string "example")
           (Demo.signed "attest.example.com" Demo.goodPayload)).
  - exact demo_example_extracted.
  - vm_compute; reflexivity.
  - reflexivity.
  - vm_compute; reflexivity.
Defined.

(** X3: when the chain validates but the signature does not verify under
    the public key of the first certificate of the first chain, the verifier
    returns an ErrInvalidAttestation failure whose detail quotes the
    verification error and whose cause is that error; the payload is not
    decoded and nothing is hashed. *)
Theorem signature_verification_failure {F : Foreign} (L : Library) (clock : Clock)
    (a : Attestation) (cdh : bytes) (n : nat) (ver : string) (rb : bytes)
    (response : JSONWebSignature) (sig0 : Signature)
    (leaf : Certificate) (rest : list Certificate) (chains : list (list Certificate))
    (err : error) :
  extracted (AttStmt a) ver rb →
  jose_ParseSigned L (String.string_of_list_byte rb) = inr response →
  Signatures response = [sig0] →
  jose_Certificates L (Protected sig0)
    {| DNSName := "attest.android.com"; CurrentTime := clock n |}
    = inr ((leaf :: rest) :: chains) →
  jose_Verify L response (PublicKey leaf) = inl err →
  invoke L clock a cdh n
  = {| outcome := Returned (Some
         {| kind := InvalidAttestation;
            debug := "invalid response for android-safetynet: " +:+ ErrorText err;
            cause := Some err |});
       readings := S n;
       calls := chain_calls clock n rb sig0 ++ [Ev (Verify response (PublicKey leaf))] |}.
Proof.
  intros Hx Hp Hs Hc Hv.
  by rewrite (run_chain_valid _ _ _ _ _ _ _ _ _ _ _ _ Hx Hp Hs Hc), Hv.
Qed.

Lemma signature_verification_failure_witness :
  invoke Demo.lib2 Demo.fixedClock Demo.forgedAttestation Demo.clientDataHash 0
  = {| outcome := Returned (Some
         {| kind := InvalidAttestation;
            debug := "invalid response for android-safetynet: "
                       +:+ "square/go-jose: error in cryptographic primitive";
            cause := Some "square/go-jose: error in cryptographic primitive" |});
       readings := 1;
       calls := chain_calls Demo.fixedClock 0 (String.list_byte_of_string "forged")
                  {| Demo.x5c := [Demo.leafFor "attest.android.com"];
                     Demo.signedWith := 8 |}
                  ++ [Ev (Verify Demo.forged 7%Z)] |}.
Proof.
  apply (signature_verification_failure Demo.lib2 Demo.fixedClock Demo.forgedAttestation
           Demo.clientDataHash 0 "14" (String.list_byte_of_string "forged")
           Demo.forged _ (Demo.leafFor "attest.android.com") [] []).
  - split; [by vm_compute|]. split; [done|by vm_compute].
  - vm_compute; reflexivity.
  - reflexivity.
  - vm_compute; reflexivity.
  - vm_compute; reflexivity.
Defined.

(** X4: when the verified payload does not decode, the verifier returns an
    ErrInvalidAttestation failure whose detail quotes the decoding error but
    which wraps no cause; nothing is hashed. *)
Theorem payload_decoding_failure {F : Foreign} (L : Library) (clock : Clock)
    (a : Attestation) (cdh : bytes) (n : nat) (ver : string) (rb : bytes)
    (response : JSONWebSignature) (sig0 : Signature)
    (leaf : Certificate) (rest : list Certificate) (chains : list (list Certificate))
    (payload : bytes) (err : error) :
  extracted (AttStmt a) ver rb →
  jose_ParseSigned L (String.string_of_list_byte rb) = inr response →
  Signatures response = [sig0] →
  jose_Certificates L (Protected sig0)
    {| DNSName := "attest.android.com"; CurrentTime := clock n |}
    = inr ((leaf :: rest) :: chains) →
  jose_Verify L response (PublicKey leaf) = inr payload →
  json_Unmarshal L payload = inl err →
  invoke L clock a cdh n
  = {| outcome := Returned (Some
         {| kind := InvalidAttestation;
            debug := "invalid response for android-safetynet: " +:+ ErrorText err;
            cause := None |});
       readings := S n;
       calls := chain_calls clock n rb sig0
                  ++ [Ev (Verify response (PublicKey leaf)); Ev (Unmarshal payload)] |}.
Proof.
  intros Hx Hp Hs Hc Hv Hd.
  by rewrite (run_chain_valid _ _ _ _ _ _ _ _ _ _ _ _ Hx Hp Hs Hc), Hv, Hd.
Qed.

Lemma payload_decoding_failure_witness :
  invoke Demo.lib2 Demo.fixedClock Demo.shortAttestation Demo.clientDataHash 0
  = {| outcome := Returned (Some
         {| kind := InvalidAttestation;
            debug := "invalid response for android-safetynet: "
                       +:+ "unexpected end of JSON input";
            cause := None |});
       readings := 1;
       calls := chain_calls Demo.fixedClock 0 (String.list_byte_of_string "short")
                  {| Demo.x5c := [Demo.leafFor "attest.android.com"];
                     Demo.signedWith := 7 |}
                  ++ [ Ev (Verify (Demo.signed "attest.android.com" [x01]) 7%Z);
                       Ev (Unmarshal [x01]) ] |}.
Proof.
  apply (payload_decoding_failure Demo.lib2 Demo.fixedClock Demo.shortAttestation
           Demo.clientDataHash 0 "14" (String.list_byte_of_string "short")
           (Demo.signed "attest.android.com" [x01]) _
           (Demo.leafFor "attest.android.com") [] [] [x01]).
  - split; [by vm_compute|]. split; [done|by vm_compute].
  - vm_compute; reflexivity.
  - reflexivity.
  - vm_compute; reflexivity.
  - vm_compute; reflexivity.
  - vm_compute; reflexivity.
Defined.

(** X5: a failure wraps a cause exactly when it comes from chain validation
    or from signature verification, and the cause is then the error that
    call returned; failures of extraction, parsing, the signature count,
    payload decoding, the nonce check and the policy check wrap none. *)
Theorem cause_marks_chain_or_signature_failure {F : Foreign} (L : Library)
    (clock : Clock) (a : Attestation) (cdh : bytes) (n : nat) (e : Error) (c : error) :
  outcome (invoke L clock a cdh n) = Returned (Some e) →
  (cause e = Some c
   ↔ ∃ response sig0,
       reaches_chain_validation L (AttStmt a) response sig0 ∧
       let answer := jose_Certificates L (Protected sig0)
                       {| DNSName := "attest.android.com"; CurrentTime := clock n |} in
       (answer = inl c ∨
        ∃ leaf rest chains,
          answer = inr ((leaf :: rest) :: chains) ∧
          jose_Verify L response (PublicKey leaf) = inl c)).
Proof.
  intros Hout. split; [apply (cause_only_if L clock a cdh n e c Hout)|].
  intros (response & sig0 & (ver & rb & Hx & Hp & Hs)
          & [Hc|(leaf & rest & chains & Hc & Hv)]).
  - rewrite (run_chain_error _ _ _ _ _ _ _ _ _ _ Hx Hp Hs Hc) in Hout.
    by injection Hout as <-.
  - rewrite (run_chain_valid _ _ _ _ _ _ _ _ _ _ _ _ Hx Hp Hs Hc), Hv in Hout.
    by injection Hout as <-.
Qed.

Lemma cause_marks_chain_or_signature_failure_witness :
  cause (WithCause (F := Demo.foreign)
           (WithDebug ErrInvalidAttestation
              "invalid response for android-safetynet: x509: certificate is not valid for the requested name")
           "x509: certificate is not valid for the requested name")
  = Some "x509: certificate is not valid for the requested name"
  ↔ ∃ response sig0,
      reaches_chain_validation Demo.lib (AttStmt Demo.exampleAttestation) response sig0 ∧
      let answer := jose_Certificates Demo.lib (Protected sig0)
                      {| DNSName := "attest.android.com";
                         CurrentTime := Demo.fixedClock 0 |} in
      (answer = inl "x509: certificate is not valid for the requested name" ∨
       ∃ leaf rest chains,
         answer = inr ((leaf :: rest) :: chains) ∧
         jose_Verify Demo.lib response (PublicKey leaf)
         = inl "x509: certificate is not valid for the requested name").
Proof.
  apply (cause_marks_chain_or_signature_failure Demo.lib Demo.fixedClock
           Demo.exampleAttestation Demo.clientDataHash 0).
  vm_compute; reflexivity.
Defined.

(** X7: the external calls of any run are an initial segment of
    ParseSigned, now, Certificates, Verify, Unmarshal, Sum256, in that order,
    each made at most once: no stage runs before the stages ahead of it. *)
Theorem calls_follow_pipeline_order {F : Foreign} (L : Library) (clock : Clock)
    (a : Attestation) (cdh : bytes) (n : nat) :
  map call_name (calls (invoke L clock a cdh n)) `prefix_of` pipeline.
Proof. apply calls_in_order. Qed.

(** X8: whatever the statement contains, chain validation is only ever
    requested for the DNS name attest.android.com. *)
Theorem only_android_host_requested {F : Foreign} (L : Library) (clock : Clock)
    (a : Attestation) (cdh : bytes) (n : nat) :
  Forall (λ name, name = "attest.android.com")
    (validation_names (calls (invoke L clock a cdh n))).
Proof. apply Forall_forall, calls_in_order. Qed.

(** X9: of the decoded payload only the nonce and ctsProfileMatch are read:
    timestampMs, apkPackageName, apkDigestSha256,
    apkCertificateDigestSha256 and basicIntegrity may decode to anything
    without changing the result. *)
Theorem unchecked_payload_fields {F : Foreign} (L : Library) (clock : Clock)
    (a : Attestation) (cdh : bytes) (n : nat)
    (f : bytes -> error + AndroidSafetyNetAttestionResponse) :
  (∀ data, same_checked_fields (f data) (json_Unmarshal L data)) →
  outcome (invoke (with_Unmarshal f L) clock a cdh n) = outcome (invoke L clock a cdh n).
Proof. apply unchecked_fields_ignored. Qed.

Lemma unchecked_payload_fields_witness :
  outcome (invoke (with_Unmarshal Demo.unmarshalStamped Demo.lib) Demo.fixedClock
             Demo.androidAttestation Demo.clientDataHash 0)
  = outcome (invoke Demo.lib Demo.fixedClock Demo.androidAttestation
               Demo.clientDataHash 0).
Proof.
  apply (unchecked_payload_fields Demo.lib Demo.fixedClock Demo.androidAttestation
           Demo.clientDataHash 0 Demo.unmarshalStamped).
  intros data. unfold Demo.unmarshalStamped. simpl.
  destruct (Demo.unmarshal data); simpl; [reflexivity|split; reflexivity].
Defined.

(** X10: of a successful chain validation only the first certificate of the
    first chain is used: further certificates and further chains may be
    anything without changing the result. *)
Theorem only_first_leaf_used {F : Foreign} (L : Library) (clock : Clock)
    (a : Attestation) (cdh : bytes) (n : nat)
    (g : Header -> VerifyOptions -> error + list (list Certificate)) :
  (∀ h opts, same_leaf (g h opts) (jose_Certificates L h opts)) →
  outcome (invoke (with_Certificates g L) clock a cdh n) = outcome (invoke L clock a cdh n).
Proof. apply other_certificates_ignored. Qed.

Lemma only_first_leaf_used_witness :
  outcome (invoke (with_Certificates Demo.certificatesTwice Demo.lib) Demo.fixedClock
             Demo.androidAttestation Demo.clientDataHash 0)
  = outcome (invoke Demo.lib Demo.fixedClock Demo.androidAttestation
               Demo.clientDataHash 0).
Proof.
  apply (only_first_leaf_used Demo.lib Demo.fixedClock Demo.androidAttestation
           Demo.clientDataHash 0 Demo.certificatesTwice).
  intros h opts. unfold Demo.certificatesTwice. simpl.
  destruct (Demo.certificates h opts) as [err|[|chain chains]]; reflexivity.
Defined.

(** X11: fields of the attestation statement other than ver and response
    are never read: setting or removing any other field leaves the verifier
    unchanged. *)
Theorem other_statement_fields_ignored {F : Foreign} (a : Attestation) (cdh : bytes)
    (k : string) :
  k ≠ "ver" → k ≠ "response" →
  (∀ v, verifyAndroidSafetynet (with_field k v a) cdh = verifyAndroidSafetynet a cdh) ∧
  verifyAndroidSafetynet (without_field k a) cdh = verifyAndroidSafetynet a cdh.
Proof. apply other_fields_ignored. Qed.

Lemma other_statement_fields_ignored_witness :
  (∀ v, verifyAndroidSafetynet (with_field "x5c" v Demo.androidAttestation)
          Demo.clientDataHash
        = verifyAndroidSafetynet Demo.androidAttestation Demo.clientDataHash) ∧
  verifyAndroidSafetynet (without_field "x5c" Demo.androidAttestation) Demo.clientDataHash
  = verifyAndroidSafetynet Demo.androidAttestation Demo.clientDataHash.
Proof.
  apply (other_statement_fields_ignored Demo.androidAttestation Demo.clientDataHash "x5c");
    discriminate.
Defined.

(** X12: authenticatorData.raw and clientDataHash enter the verifier only
    through their concatenation: two transactions with the same statement
    and the same concatenated bytes run identically, wherever the boundary
    between the two components lies. *)
Theorem transaction_enters_as_concatenation {F : Foreign} (L : Library)
    (clock : Clock) (a a' : Attestation) (cdh cdh' : bytes) (n : nat) :
  AttStmt a' = AttStmt a →
  Raw (AuthData a') ++ cdh' = Raw (AuthData a) ++ cdh →
  invoke L clock a' cdh' n = invoke L clock a cdh n.
Proof. apply concatenation_only. Qed.

Lemma transaction_enters_as_concatenation_witness :
  invoke Demo.lib Demo.fixedClock Demo.shiftedAttestation Demo.shiftedClientDataHash 0
  = invoke Demo.lib Demo.fixedClock Demo.androidAttestation Demo.clientDataHash 0.
Proof.
  apply (transaction_enters_as_concatenation Demo.lib Demo.fixedClock
           Demo.androidAttestation Demo.shiftedAttestation
           Demo.clientDataHash Demo.shiftedClientDataHash 0);
    reflexivity.
Defined.

(** X13: a run that ends before the hash is computed (any failure of
    extraction, parsing, chain validation, signature verification or
    decoding, or a panic) does not depend on authenticatorData or
    clientDataHash: any other transaction with the same statement runs
    identically. *)
Theorem early_end_ignores_transaction {F : Foreign} (L : Library) (clock : Clock)
    (a a' : Attestation) (cdh cdh' : bytes) (n : nat) :
  AttStmt a' = AttStmt a →
  hashed (calls (invoke L clock a cdh n)) = [] →
  invoke L clock a' cdh' n = invoke L clock a cdh n.
Proof. apply unhashed_run_ignores_transaction. Qed.

Lemma early_end_ignores_transaction_witness :
  invoke Demo.lib Demo.fixedClock
    (Demo.attestation (AttStmt Demo.exampleAttestation) [x09; x09]) [x0a] 0
  = invoke Demo.lib Demo.fixedClock Demo.exampleAttestation Demo.clientDataHash 0.
Proof.
  apply (early_end_ignores_transaction Demo.lib Demo.fixedClock Demo.exampleAttestation
           (Demo.attestation (AttStmt Demo.exampleAttestation) [x09; x09])
           Demo.clientDataHash [x0a] 0).
  - reflexivity.
  - vm_compute; reflexivity.
Defined.

(** X14: ver is checked first: when ver is absent, not a string, or the
    empty string, the verifier is determined by the ver field alone,
    whatever the response field, the authenticator data and the
    clientDataHash are. *)
Theorem malformed_ver_decides_alone {F : Foreign} (a a' : Attestation)
    (cdh cdh' : bytes) :
  AttStmt a' !! "ver" = AttStmt a !! "ver" →
  (∀ s, AttStmt a !! "ver" = Some (VString s) → s = "") →
  verifyAndroidSafetynet a' cdh' = verifyAndroidSafetynet a cdh.
Proof. apply bad_ver_decides. Qed.

Lemma malformed_ver_decides_alone_witness :
  verifyAndroidSafetynet (Demo.attestation ∅ [x09]) [x0a]
  = verifyAndroidSafetynet Demo.missingVerAttestation Demo.clientDataHash.
Proof.
  apply (malformed_ver_decides_alone Demo.missingVerAttestation
           (Demo.attestation ∅ [x09]) Demo.clientDataHash [x0a]).
  - vm_compute; reflexivity.
  - intros s Hs. vm_compute in Hs. discriminate Hs.
Defined.

(** X15: when ver is well formed and response is present but not a byte
    sequence, the failure detail names the type []uint8 whatever the actual
    type of the response value is (the detail formats the zero byte slice of
    the failed assertion), so ill-typed responses of different types are
    reported identically. *)
Theorem response_type_detail_is_constant {F : Foreign} (a : Attestation) (cdh : bytes)
    (ver : string) (v : Value) :
  AttStmt a !! "ver" = Some (VString ver) → ver ≠ "" →
  AttStmt a !! "response" = Some v → (∀ b, v ≠ VBytes b) →
  verifyAndroidSafetynet a cdh
  = Ret (Some (WithDebug ErrInvalidAttestation
                 "invalid response for android-safetynet, is of invalid type []uint8")).
Proof. apply bad_response_detail. Qed.

Lemma response_type_detail_is_constant_witness :
  verifyAndroidSafetynet
    (with_field "response" (VString "abc") Demo.androidAttestation) Demo.clientDataHash
  = Ret (Some (WithDebug ErrInvalidAttestation
                 "invalid response for android-safetynet, is of invalid type []uint8")).
Proof.
  apply (response_type_detail_is_constant
           (with_field "response" (VString "abc") Demo.androidAttestation)
           Demo.clientDataHash "14" (VString "abc")).
  - vm_compute; reflexivity.
  - discriminate.
  - vm_compute; reflexivity.
  - discriminate.
Defined.
